(** * JuniperMist/list_devices.py: paginated device listing and grouped display

    A shallow embedding of [get_all_devices] and [display_devices] and the
    properties of the pagination loop, the page-shape dispatch, the Link
    header parsing and the grouping by device type.

    Conventions of the embedding.
    - A Python [str] is a Rocq [string] holding its UTF-8 bytes: substring
      tests, splitting on an ASCII separator and equality act on bytes as
      they act on code points; [py_len] and [py_chars] count and cut code
      points.
    - A parsed JSON value is a [json]; a Python [dict] is an association
      list in insertion order, looked up by first match.
    - [requests.get] is an oracle [server]: it answers the n-th request
      (n counted from 0) to a URL with a [reply].
    - The [while url:] loop is run with fuel: [None] means the fuel ran
      out, [Some r] is a finished run.
    - [print] appends a [line] to a trace; a line keeps the values that
      the f-string interpolates, and [render] gives its text where every
      interpolated value is a string. *)

From Stdlib Require Import List String Ascii ZArith QArith Bool Arith Lia.
From Stdlib Require Import DecimalString.
From Stdlib Require Import Permutation.
Import ListNotations.
#[local] Set Warnings "-register-all".
Local Open Scope string_scope.
Local Open Scope list_scope.
Local Close Scope Q_scope.
Local Open Scope nat_scope.

(* ================================================================== *)
(** ** Python strings *)
(* ================================================================== *)

Module PyStr.

(** The double-quote character. *)
Definition dquote : ascii := "034"%char.

Definition newline : ascii := "010"%char.

(** [c in s] for a one-character [c]. *)
Fixpoint has_char (c : ascii) (s : string) : bool :=
  match s with
  | EmptyString => false
  | String a r => Ascii.eqb a c || has_char c r
  end.

(** [needle in hay]. *)
Fixpoint contains (needle hay : string) : bool :=
  String.prefix needle hay ||
  match hay with
  | EmptyString => false
  | String _ r => contains needle r
  end.

(** [s.split(sep)] for a one-character separator: the pieces between
    the separators, never an empty list. *)
Fixpoint split (sep : ascii) (s : string) : list string :=
  match s with
  | EmptyString => [EmptyString]
  | String a r =>
      if Ascii.eqb a sep then EmptyString :: split sep r
      else match split sep r with
           | [] => [String a EmptyString]
           | p :: ps => String a p :: ps
           end
  end.

(** [c * n]. *)
Fixpoint repeat_char (c : ascii) (n : nat) : string :=
  match n with
  | O => EmptyString
  | S k => String c (repeat_char c k)
  end.

(** A continuation byte of UTF-8, [10xxxxxx]. *)
Definition is_continuation (a : ascii) : bool :=
  let n := nat_of_ascii a in (128 <=? n) && (n <? 192).

(** [len(s)]: the number of code points. *)
Fixpoint py_len (s : string) : nat :=
  match s with
  | EmptyString => 0
  | String a r => (if is_continuation a then 0 else 1) + py_len r
  end.

(** [list(s)]: the one-character strings of [s], in order. *)
Fixpoint py_chars (s : string) : list string :=
  match s with
  | EmptyString => []
  | String a r =>
      match py_chars r with
      | [] => [String a EmptyString]
      | c :: cs =>
          match c with
          | String b _ =>
              if is_continuation b then String a c :: cs
              else String a EmptyString :: c :: cs
          | EmptyString => String a EmptyString :: cs
          end
      end
  end.

(** A string of one code point: a first byte, then continuation bytes. *)
Definition one_char (c : string) : Prop :=
  match c with
  | EmptyString => False
  | String _ t => py_len t = 0
  end.

(** [format(s, "<w")]: left-aligned in a field of [w] code points. *)
Definition ljust (w : nat) (s : string) : string :=
  s ++ repeat_char " " (w - py_len s).

Definition ascii_upper_char (a : ascii) : ascii :=
  let n := nat_of_ascii a in
  if (97 <=? n) && (n <=? 122) then ascii_of_nat (n - 32) else a.

Definition ascii_lower_char (a : ascii) : ascii :=
  let n := nat_of_ascii a in
  if (65 <=? n) && (n <=? 90) then ascii_of_nat (n + 32) else a.

Fixpoint map_chars (f : ascii -> ascii) (s : string) : string :=
  match s with
  | EmptyString => EmptyString
  | String a r => String (f a) (map_chars f r)
  end.

(** [s.upper()] on ASCII text. *)
Definition ascii_upper : string -> string := map_chars ascii_upper_char.

(** [s.lower()] on ASCII text (header names). *)
Definition ascii_lower : string -> string := map_chars ascii_lower_char.

(** [str(n)] for a length or a count. *)
Definition decimal (n : nat) : string :=
  NilZero.string_of_uint (Nat.to_uint n).

End PyStr.

(* ================================================================== *)
(** ** Parsed JSON values, as Python objects *)
(* ================================================================== *)

Module Json.

(** A Python [float]. *)
Inductive pyfloat : Type :=
| FNaN
| FInf (negative : bool)
| FFinite (q : Q).

Inductive json : Type :=
| JNull
| JBool (b : bool)
| JInt (n : Z)
| JFloat (x : pyfloat)
| JStr (s : string)
| JList (l : list json)
| JDict (d : list (string * json)).

Definition pydict := list (string * json).

(** [type(v)]. *)
Inductive pytype : Type :=
| NoneType | TBool | TInt | TFloat | TStr | TList | TDict.

Definition type_of (v : json) : pytype :=
  match v with
  | JNull => NoneType
  | JBool _ => TBool
  | JInt _ => TInt
  | JFloat _ => TFloat
  | JStr _ => TStr
  | JList _ => TList
  | JDict _ => TDict
  end.

(** [isinstance(v, dict)] and [isinstance(v, list)]. *)
Definition is_dict (v : json) : bool :=
  match v with JDict _ => true | _ => false end.

Definition is_list (v : json) : bool :=
  match v with JList _ => true | _ => false end.

(** [d[k]], [None] for a [KeyError]; also decides [k in d]. *)
Fixpoint lookup (k : string) (d : pydict) : option json :=
  match d with
  | [] => None
  | (k', v) :: r => if String.eqb k' k then Some v else lookup k r
  end.

(** [d.get(k, default)]. *)
Definition get (d : pydict) (k : string) (default : json) : json :=
  match lookup k d with Some v => v | None => default end.

(** [list(d.keys())]. *)
Definition keys (d : pydict) : list string := map fst d.

(** What a [for] over [v] (so also [list.extend(v)]) yields; [None]
    when [v] is not iterable, which raises [TypeError]. *)
Definition py_iter (v : json) : option (list json) :=
  match v with
  | JList l => Some l
  | JStr s => Some (map JStr (PyStr.py_chars s))
  | JDict d => Some (map JStr (keys d))
  | JNull | JBool _ | JInt _ | JFloat _ => None
  end.

(** The numeric value of [bool], [int] and [float] objects. *)
Definition number (v : json) : option pyfloat :=
  match v with
  | JBool b => Some (FFinite (if b then 1%Q else 0%Q))
  | JInt n => Some (FFinite (inject_Z n))
  | JFloat x => Some x
  | _ => None
  end.

Definition float_eqb (x y : pyfloat) : bool :=
  match x, y with
  | FFinite p, FFinite q => Qeq_bool p q
  | FInf a, FInf b => Bool.eqb a b
  | _, _ => false
  end.

(** [a == b] between two distinct hashable objects (dictionary keys). *)
Definition py_eqb (a b : json) : bool :=
  match a, b with
  | JNull, JNull => true
  | JStr s, JStr t => String.eqb s t
  | _, _ =>
      match number a, number b with
      | Some x, Some y => float_eqb x y
      | _, _ => false
      end
  end.

(** Lists and dictionaries are unhashable. *)
Definition hashable (v : json) : bool :=
  match v with JList _ | JDict _ => false | _ => true end.

End Json.

(* ================================================================== *)
(** ** The HTTP client: what [requests.get] gives back *)
(* ================================================================== *)

Module Http.
Import Json.

Definition headers := list (string * string).

(** [headers.get(name, default)] on the case-insensitive dictionary of
    response headers. *)
Fixpoint headers_get (hs : headers) (name default : string) : string :=
  match hs with
  | [] => default
  | (k, v) :: r =>
      if String.eqb (PyStr.ascii_lower k) (PyStr.ascii_lower name) then v
      else headers_get r name default
  end.

Record request : Type := mk_request {
  req_url : string;
  req_headers : headers
}.

(** A response: [json_body] is the value of [response.json()], [None]
    when the body is not JSON. *)
Record response : Type := mk_response {
  status_code : Z;
  resp_headers : headers;
  json_body : option json
}.

(** [requests.get] either raises (connection error, timeout, ...) or
    returns a response. *)
Inductive reply : Type :=
| ConnectionFailed (reason : string)
| Answer (r : response).

(** The [n]-th request (from 0) and what comes back. *)
Definition server := nat -> request -> reply.

(** [response.raise_for_status()] raises [HTTPError] for the 4xx and 5xx
    status codes and for no other. *)
Definition raises_for_status (r : response) : bool :=
  ((400 <=? status_code r) && (status_code r <? 600))%Z.

(** The subclasses of [requests.exceptions.RequestException] met here;
    [response.json()] raises [requests.exceptions.JSONDecodeError], one
    of them since requests 2.27. *)
Inductive request_exception : Type :=
| ConnectionError (reason : string)
| HTTPError (status : Z)
| JSONDecodeError.

End Http.

(* ================================================================== *)
(** ** What is printed, and what is raised *)
(* ================================================================== *)

Module Out.
Import Json.

(** Exceptions that no handler of the script catches. *)
Inductive exn : Type :=
| IndexError
| TypeError
| AttributeError.

(** One [print] call, with the values its f-string interpolates. *)
Inductive line : Type :=
| DebugResponseType (t : pytype)
| UnexpectedResponse (batch : json)
| ErrorFetching (e : Http.request_exception)
| NoDevicesFound
| FoundDevices (count : nat)
| Rule (c : ascii) (width : nat)
| DebugFirstType (t : pytype)
| DebugFirstKeys (ks : list string)
| WarnUnexpectedDevice (t : pytype) (device : json)
| GroupHeader (device_type : string) (count : nat)
| DeviceSummary (name model mac status : json)
| DeviceDetail (serial site_id : json)
| Blank.

End Out.

(* ================================================================== *)
(** ** [get_all_devices] *)
(* ================================================================== *)

Module Fetch.
Import Json Http Out.

(** The marker [rel="next"]. *)
Definition rel_next : string :=
  "rel=" ++ String PyStr.dquote ("next" ++ String PyStr.dquote EmptyString).

(** The [for link in link_header.split(',')] loop with its [else]. *)
Fixpoint find_next (links : list string) : exn + option string :=
  match links with
  | [] => inr None
  | link :: rest =>
      if PyStr.contains rel_next link then
        match nth_error (PyStr.split "<" link) 1 with
        | None => inl IndexError
        | Some tail =>
            match nth_error (PyStr.split ">" tail) 0 with
            | None => inl IndexError
            | Some u => inr (Some u)
            end
        end
      else find_next rest
  end.

(** Lines 53-63: the new value of [url] read off the Link header. *)
Definition next_url (link_header : string) : exn + option string :=
  if PyStr.contains rel_next link_header
  then find_next (PyStr.split "," link_header)
  else inr None.

(** The variables of the loop, with the requests sent and the lines
    printed so far. *)
Record state : Type := mk_state {
  devices : list json;
  url : option string;
  sent : list request;
  printed : list line
}.

Definition set_devices (st : state) (ds : list json) : state :=
  mk_state ds (url st) (sent st) (printed st).

Definition set_url (st : state) (u : option string) : state :=
  mk_state (devices st) u (sent st) (printed st).

Definition send (st : state) (rq : request) : state :=
  mk_state (devices st) (url st) (sent st ++ [rq]) (printed st).

Definition print (st : state) (l : line) : state :=
  mk_state (devices st) (url st) (sent st) (printed st ++ [l]).

(** How one pass through the body of the loop ends. *)
Inductive flow : Type :=
| Next (st : state)
| Break (st : state)
| Exit (code : Z) (st : state)
| Raise (e : exn) (st : state).

(** [devices.extend(v)]: [TypeError] when [v] is not iterable. *)
Definition extend (st : state) (v : json) : flow :=
  match py_iter v with
  | Some items => Next (set_devices st (devices st ++ items))
  | None => Raise TypeError st
  end.

(** Lines 37-50: the page is added to [devices], or the loop is left. *)
Definition collect (st : state) (batch : json) : flow :=
  match batch with
  | JList l => Next (set_devices st (devices st ++ l))
  | JDict d =>
      match lookup "data" d with
      | Some v => extend st v
      | None =>
          match lookup "results" d with
          | Some v => extend st v
          | None => Next (set_devices st (devices st ++ [batch]))
          end
      end
  | _ => Break (print st (UnexpectedResponse batch))
  end.

(** Lines 52-63. *)
Definition follow_link (st : state) (r : response) : flow :=
  match next_url (headers_get (resp_headers r) "Link" EmptyString) with
  | inl e => Raise e st
  | inr u => Next (set_url st u)
  end.

(** The [except requests.exceptions.RequestException] handler. *)
Definition fail (st : state) (e : request_exception) : flow :=
  Exit 1 (print st (ErrorFetching e)).

(** Lines 29-67: one pass through the body, with [url] equal to [u]. *)
Definition body (srv : server) (hdrs : headers) (st : state) (u : string)
  : flow :=
  let rq := mk_request u hdrs in
  let st1 := send st rq in
  match srv (List.length (sent st)) rq with
  | ConnectionFailed reason => fail st1 (ConnectionError reason)
  | Answer r =>
      if raises_for_status r then fail st1 (HTTPError (status_code r))
      else
        match json_body r with
        | None => fail st1 JSONDecodeError
        | Some batch =>
            let st2 := print st1 (DebugResponseType (type_of batch)) in
            match collect st2 batch with
            | Next st3 => follow_link st3 r
            | other => other
            end
        end
  end.

(** The truth value of [url]: [None] and the empty string are false. *)
Definition truthy (u : option string) : option string :=
  match u with
  | Some EmptyString => None
  | other => other
  end.

(** How a call ends. *)
Inductive outcome : Type :=
| Returned (devs : list json)
| SysExit (code : Z)
| Uncaught (e : exn).

Record run : Type := mk_run {
  result : outcome;
  requests : list request;
  output : list line
}.

Definition finish (o : outcome) (st : state) : run :=
  mk_run o (sent st) (printed st).

(** Lines 28-69: [while url: ...; return devices]. *)
Fixpoint while_url (fuel : nat) (srv : server) (hdrs : headers) (st : state)
  : option run :=
  match fuel with
  | O => None
  | S fuel' =>
      match truthy (url st) with
      | None => Some (finish (Returned (devices st)) st)
      | Some u =>
          match body srv hdrs st u with
          | Next st' => while_url fuel' srv hdrs st'
          | Break st' => Some (finish (Returned (devices st')) st')
          | Exit code st' => Some (finish (SysExit code) st')
          | Raise e st' => Some (finish (Uncaught e) st')
          end
      end
  end.

Definition devices_url (org_id : string) : string :=
  "https://api.mist.com/api/v1/orgs/" ++ org_id ++ "/devices".

Definition initial (org_id : string) : state :=
  mk_state [] (Some (devices_url org_id)) [] [].

Definition get_all_devices (fuel : nat) (srv : server)
  (org_id : string) (hdrs : headers) : option run :=
  while_url fuel srv hdrs (initial org_id).

End Fetch.

(* ================================================================== *)
(** ** [display_devices] *)
(* ================================================================== *)

Module Display.
Import Json Out.

(** What a piece of code prints, and the exception that ends it, if
    any. *)
Definition trace : Type := list line * option exn.

Definition say (l : line) : trace := ([l], None).
Definition throw (e : exn) : trace := ([], Some e).
Definition skip : trace := ([], None).

(** Sequencing: what follows a raise is not run. *)
Definition and_then (a b : trace) : trace :=
  match snd a with
  | Some _ => a
  | None => (fst a ++ fst b, snd b)
  end.

Notation "a ;; b" := (and_then a b) (at level 61, right associativity).

Fixpoint for_each {A : Type} (f : A -> trace) (l : list A) : trace :=
  match l with
  | [] => skip
  | x :: r => f x ;; for_each f r
  end.

(** [device_types]: device type to the records of that type, in the
    order the types were inserted. *)
Definition groups : Type := list (json * list pydict).

(** [device_type in device_types]. *)
Fixpoint has_group (k : json) (g : groups) : bool :=
  match g with
  | [] => false
  | (k', _) :: r => py_eqb k' k || has_group k r
  end.

(** [device_types[device_type].append(device)] for a type already
    there. *)
Fixpoint append_to (k : json) (d : pydict) (g : groups) : groups :=
  match g with
  | [] => []
  | (k', ds) :: r =>
      if py_eqb k' k then (k', ds ++ [d]) :: r
      else (k', ds) :: append_to k d r
  end.

(** Lines 95-97: a type not yet there gets a new, last entry, which
    then receives the record. *)
Definition add_device (k : json) (d : pydict) (g : groups) : groups :=
  if has_group k g then append_to k d g else g ++ [(k, [d])].

(** Lines 88-97: the grouping loop, from the groups [g] built so far.
    Testing an unhashable type for membership raises [TypeError]. *)
Fixpoint group_devices (devs : list json) (g : groups)
  : list line * (exn + groups) :=
  match devs with
  | [] => ([], inr g)
  | device :: rest =>
      match device with
      | JDict d =>
          let device_type := get d "type" (JStr "Unknown") in
          if hashable device_type
          then group_devices rest (add_device device_type d g)
          else ([], inl TypeError)
      | _ =>
          let (ls, r) := group_devices rest g in
          (WarnUnexpectedDevice (type_of device) device :: ls, r)
      end
  end.

(** [format(v, "<20")] raises [TypeError] for [None], lists and
    dictionaries, whose [__format__] takes no format specification. *)
Definition formattable (v : json) : bool :=
  match v with
  | JNull | JList _ | JDict _ => false
  | _ => true
  end.

(** Lines 104-113: the lines of one record. *)
Definition show_device (device : pydict) : trace :=
  let name := get device "name" (JStr "Unnamed") in
  let model := get device "model" (JStr "N/A") in
  let mac := get device "mac" (JStr "N/A") in
  let serial := get device "serial" (JStr "N/A") in
  let status := get device "status" (JStr "N/A") in
  let site_id := get device "site_id" (JStr "N/A") in
  (if formattable name && formattable model
   then say (DeviceSummary name model mac status)
   else throw TypeError) ;;
  (if formattable serial
   then say (DeviceDetail serial site_id)
   else throw TypeError) ;;
  say Blank.

(** Lines 100-113: one group; [upper] exists on strings only. *)
Definition show_group (entry : json * list pydict) : trace :=
  let (device_type, type_devices) := entry in
  match device_type with
  | JStr s =>
      say (GroupHeader s (List.length type_devices)) ;;
      say (Rule "-" 50) ;;
      for_each show_device type_devices
  | _ => throw AttributeError
  end.

Definition display_devices (devices : list json) : trace :=
  match devices with
  | [] => say NoDevicesFound
  | first :: _ =>
      say (FoundDevices (List.length devices)) ;;
      say (Rule "=" 100) ;;
      say (DebugFirstType (type_of first)) ;;
      (match first with
       | JDict d => say (DebugFirstKeys (keys d))
       | _ => skip
       end) ;;
      let (warnings, grouped) := group_devices devices [] in
      (warnings, None) ;;
      match grouped with
      | inl e => throw e
      | inr device_types => for_each show_group device_types
      end
  end.

(** *** The text of a line *)

Local Open Scope string_scope.

(** [str(type(v))]. *)
Definition class_name (t : pytype) : string :=
  "<class '" ++
  match t with
  | NoneType => "NoneType"
  | TBool => "bool"
  | TInt => "int"
  | TFloat => "float"
  | TStr => "str"
  | TList => "list"
  | TDict => "dict"
  end ++ "'>".

(** The three characters that open a summary line in the source file,
    as UTF-8. *)
Definition bullet : string :=
  String "195" (String "162" (String "226" (String "130"
    (String "172" (String "194" (String "162" EmptyString)))))).

(** [str(v)] and [format(v, "<w")], given for strings. *)
Definition text (v : json) : option string :=
  match v with JStr s => Some s | _ => None end.

Definition text_left (w : nat) (v : json) : option string :=
  match v with JStr s => Some (PyStr.ljust w s) | _ => None end.

Definition cat (a : string) (b : option string) : option string :=
  option_map (fun s => (a ++ s)%string) b.

Definition cat2 (a b : option string) : option string :=
  match a, b with
  | Some x, Some y => Some (x ++ y)%string
  | _, _ => None
  end.

(** The text that [print] writes for a line, the final newline left
    out; [upper] is [str.upper]. [None] where the text is not given
    here. *)
Definition render (upper : string -> string) (l : line) : option string :=
  match l with
  | DebugResponseType t => Some ("Debug: Response type: " ++ class_name t)
  | UnexpectedResponse batch => cat "Unexpected response format: " (text batch)
  | ErrorFetching _ => None
  | NoDevicesFound => Some "No devices found."
  | FoundDevices n =>
      Some ("Found " ++ PyStr.decimal n ++ " devices in the organization:")
  | Rule c w => Some (PyStr.repeat_char c w)
  | DebugFirstType t => Some ("Debug: First device type: " ++ class_name t)
  | DebugFirstKeys _ => None
  | WarnUnexpectedDevice t device =>
      cat ("Warning: Unexpected device format: " ++ class_name t ++ " - ")
          (text device)
  | GroupHeader device_type n =>
      Some (String PyStr.newline
              (upper device_type ++ " (" ++ PyStr.decimal n ++ " devices)"))
  | DeviceSummary name model mac status =>
      cat2 (cat ("  " ++ bullet ++ " ") (text_left 20 name))
       (cat2 (cat " | Model: " (text_left 15 model))
        (cat2 (cat " | MAC: " (text mac)) (cat " | Status: " (text status))))
  | DeviceDetail serial site_id =>
      cat2 (cat "    Serial: " (text_left 20 serial))
           (cat " | Site ID: " (text site_id))
  | Blank => Some EmptyString
  end.

End Display.

(* ================================================================== *)
(** ** The vocabulary of the properties *)
(* ================================================================== *)

Module Spec.
Import Json Http Out Fetch Display.

(** The records that a page contributes: the elements of a sequence,
    the elements of the value at [data], else of the value at
    [results], else the mapping itself; [None] for any other body and
    for a value without elements. *)
Definition page_records (batch : json) : option (list json) :=
  match batch with
  | JList l => Some l
  | JDict d =>
      match lookup "data" d with
      | Some v => py_iter v
      | None =>
          match lookup "results" d with
          | Some v => py_iter v
          | None => Some [batch]
          end
      end
  | _ => None
  end.

(** The value of the Link header of a response, empty when absent. *)
Definition link_of (r : response) : string :=
  headers_get (resp_headers r) "Link" EmptyString.

(** An entry [a<u>b] of a Link header. *)
Definition link_entry (a u b : string) : string :=
  (a ++ "<" ++ u ++ ">" ++ b)%string.

(** The header holds the entry [<u>; rel="next"]. *)
Definition names_next (header u : string) : Prop :=
  exists pre post,
    header = (pre ++ "<" ++ u ++ ">; " ++ rel_next ++ post)%string.

(** The header is a comma-separated list of entries, and the first
    entry that carries [rel="next"] holds [u] between its first [<] and
    the [>] that follows. *)
Definition entry_at (header u : string) : Prop :=
  exists before a b after,
    header = String.concat "," (before ++ link_entry a u b :: after) /\
    Forall (fun e => PyStr.has_char "," e = false)
           (before ++ link_entry a u b :: after) /\
    Forall (fun e => PyStr.contains rel_next e = false) before /\
    PyStr.contains rel_next (link_entry a u b) = true /\
    PyStr.has_char "<" a = false /\
    PyStr.has_char "<" u = false /\
    PyStr.has_char ">" u = false.

(** The header points to a next page: [u] is not empty. *)
Definition points_to (header u : string) : Prop :=
  u <> EmptyString /\ entry_at header u.

(** A page of a listing: where it is, the response, its records. *)
Record page : Type := mk_page {
  page_url : string;
  page_response : response;
  page_items : list json
}.

(** The response is a success and its body has the records [items]. *)
Definition good_page (r : response) (items : list json) : Prop :=
  raises_for_status r = false /\
  exists batch, json_body r = Some batch /\ page_records batch = Some items.

(** The [n]-th request, to [u], opens the pages [pages]: the header of
    each page but the last gives the next page, in the sense of [next],
    and the last has no [rel="next"]. *)
Fixpoint chain (next : string -> string -> Prop) (srv : server)
  (hdrs : headers) (n : nat) (u : string) (pages : list page) : Prop :=
  match pages with
  | [] => False
  | p :: rest =>
      page_url p = u /\
      srv n (mk_request u hdrs) = Answer (page_response p) /\
      good_page (page_response p) (page_items p) /\
      match rest with
      | [] => PyStr.contains rel_next (link_of (page_response p)) = false
      | q :: _ =>
          next (link_of (page_response p)) (page_url q) /\
          chain next srv hdrs (S n) (page_url q) rest
      end
  end.

Definition page_request (hdrs : headers) (p : page) : request :=
  mk_request (page_url p) hdrs.

Definition page_debug (p : page) : list line :=
  match json_body (page_response p) with
  | Some batch => [DebugResponseType (type_of batch)]
  | None => []
  end.

(** The state after the records of a good page were added. *)
Definition collected (st : state) (rq : request) (batch : json)
  (items : list json) : state :=
  set_devices (print (send st rq) (DebugResponseType (type_of batch)))
              (devices st ++ items).

(** A status code from 200 to 299. *)
Definition is_2xx (r : response) : bool :=
  ((200 <=? status_code r) && (status_code r <? 300))%Z.

(** The state at the end of a pass through the body. *)
Definition flow_state (f : flow) : state :=
  match f with
  | Next st | Break st | Exit _ st | Raise _ st => st
  end.

(** The state after [n] passes through the body, while each pass ends
    at the bottom of the body and [url] is true at the top. *)
Fixpoint passes (n : nat) (srv : server) (hdrs : headers) (st : state)
  : option state :=
  match n with
  | O => Some st
  | S k =>
      match truthy (url st) with
      | None => None
      | Some u =>
          match body srv hdrs st u with
          | Next st' => passes k srv hdrs st'
          | _ => None
          end
      end
  end.

(** *** Grouping and display *)

(** The key under which a record is grouped. *)
Definition type_of_record (d : pydict) : json := get d "type" (JStr "Unknown").

Definition type_name (d : pydict) : string :=
  match type_of_record d with
  | JStr s => s
  | _ => EmptyString
  end.

(** The mappings of a collection, and its other elements, in order. *)
Fixpoint records (devs : list json) : list pydict :=
  match devs with
  | [] => []
  | JDict d :: rest => d :: records rest
  | _ :: rest => records rest
  end.

Fixpoint strangers (devs : list json) : list json :=
  match devs with
  | [] => []
  | JDict _ :: rest => strangers rest
  | v :: rest => v :: strangers rest
  end.

(** [t] occurs in [l]. *)
Definition mem (t : string) (l : list string) : bool :=
  existsb (fun t' => String.eqb t' t) l.

(** The values of [l] in the order of their first occurrence. *)
Fixpoint first_seen (l : list string) : list string :=
  match l with
  | [] => []
  | x :: rest => x :: filter (fun y => negb (String.eqb x y)) (first_seen rest)
  end.

(** The records of type [t], in their original order. *)
Definition members (t : string) (recs : list pydict) : list pydict :=
  filter (fun d => String.eqb (type_name d) t) recs.

(** The data model: a field is a string, when present. *)
Definition string_or_absent (k : string) (d : pydict) : bool :=
  match lookup k d with
  | None | Some (JStr _) => true
  | Some _ => false
  end.

Definition plain_record (d : pydict) : bool :=
  forallb (fun k => string_or_absent k d)
          ["type"; "name"; "model"; "mac"; "serial"; "status"; "site_id"].

(** [v] is what is shown for the field [k]: its own value, or the
    default when the field is missing. *)
Definition shows (k default : string) (d : pydict) (v : json) : Prop :=
  (lookup k d = None -> v = JStr default) /\
  (forall x, lookup k d = Some x -> v = x).

(** The lines before the groups. *)
Definition preamble (devs : list json) : list line :=
  match devs with
  | [] => []
  | first :: _ =>
      [FoundDevices (List.length devs); Rule "=" 100;
       DebugFirstType (type_of first)] ++
      match first with
      | JDict d => [DebugFirstKeys (keys d)]
      | _ => []
      end
  end.

Definition warnings (devs : list json) : list line :=
  map (fun v => WarnUnexpectedDevice (type_of v) v) (strangers devs).

(** The three lines of a record and the lines of a group. *)
Definition record_lines (d : pydict) : list line :=
  fst (show_device d).

Definition group_lines (t : string) (ds : list pydict) : list line :=
  GroupHeader t (List.length ds) :: Rule "-" 50 ::
  List.concat (map record_lines ds).

(** The group headers among the lines printed, in order. *)
Definition headers_of (ls : list line) : list (string * nat) :=
  flat_map (fun l => match l with
                     | GroupHeader t n => [(t, n)]
                     | _ => []
                     end) ls.

(** The warnings among the lines printed, in order. *)
Definition warned (ls : list line) : list json :=
  flat_map (fun l => match l with
                     | WarnUnexpectedDevice _ v => [v]
                     | _ => []
                     end) ls.

(** The groups of a list of records: a group for each type, in the
    order in which the types are first seen. *)
Definition grouped (recs : list pydict) : groups :=
  map (fun t => (JStr t, members t recs)) (first_seen (map type_name recs)).

End Spec.

(* ================================================================== *)
(** ** Sample servers and collections *)
(* ================================================================== *)

Module Examples.
Import Json Http Out Fetch Display Spec.

Definition auth_headers : headers :=
  [("Authorization", "Token t0"); ("Content-Type", "application/json")].

Definition device (type name : string) : json :=
  JDict [("type", JStr type); ("name", JStr name)].

Definition ap1 : json := device "ap" "lobby".
Definition ap2 : json := device "ap" "hall".
Definition sw1 : json := device "switch" "core".

(** The header [<u>; rel="next"]. *)
Definition plain_link (u : string) : string :=
  ("<" ++ u ++ ">; " ++ rel_next)%string.

(** A 200 response with a JSON body and, maybe, a Link header. *)
Definition ok_response (link : option string) (batch : json) : response :=
  mk_response 200
    (match link with Some l => [("Link", l)] | None => [] end)
    (Some batch).

(** A server that answers by URL alone. *)
Fixpoint route (table : list (string * response)) (u : string) : reply :=
  match table with
  | [] => ConnectionFailed "no route to host"
  | (u', r) :: rest => if String.eqb u' u then Answer r else route rest u
  end.

Definition serve (table : list (string * response)) : server :=
  fun _ rq => route table (req_url rq).

Definition first_url : string := devices_url "o1".

(** Two pages: a bare sequence, then a mapping with [results]. *)
Definition second_url : string := (first_url ++ "?page=2")%string.

Definition two_pages : list page :=
  [ mk_page first_url
      (ok_response (Some (plain_link second_url)) (JList [ap1; ap2]))
      [ap1; ap2];
    mk_page second_url
      (ok_response None (JDict [("results", JList [sw1])]))
      [sw1] ].

Definition table_of (pages : list page) : list (string * response) :=
  map (fun p => (page_url p, page_response p)) pages.





(** A first page whose body is a JSON string, pointing to a second. *)
Definition notice : json := JStr "maintenance".

Definition notice_table : list (string * response) :=
  [(first_url, ok_response (Some (plain_link second_url)) notice);
   (second_url, ok_response None (JList [sw1]))].

(** A 300 response with a JSON body. *)
Definition multiple_choices : response :=
  mk_response 300 [] (Some (JList [ap1])).

(** A 503 response on the second page. *)
Definition unavailable : response :=
  mk_response 503 [] (Some (JDict [("detail", JStr "unavailable")])).

Definition failing_table : list (string * response) :=
  [(first_url, ok_response (Some (plain_link second_url)) (JList [ap1]));
   (second_url, unavailable)].

(** A page whose Link header points back to the page itself. *)
Definition cyclic_response : response :=
  ok_response (Some (plain_link first_url)) (JList [ap1]).

Definition cyclic_table : list (string * response) :=
  [(first_url, cyclic_response)].

(** A mapping whose [data] is a string. *)
Definition text_data : json := JDict [("data", JStr "abc")].

Definition text_data_response : response := ok_response None text_data.

Definition text_data_table : list (string * response) :=
  [(first_url, ok_response None text_data)].

(** The state of the loop before the second request of [two_pages]. *)
Definition after_first_page : state :=
  mk_state [ap1; ap2] (Some second_url)
           [mk_request first_url auth_headers]
           [DebugResponseType TList].

(** Collections to display. *)
Definition inventory : list json := [ap1; ap2; sw1].

Definition mixed : list json := [ap1; JStr "offline"; sw1; JInt 7].

(** A record with a name only, and one with every field. *)
Definition nameless : pydict := [("mac", JStr "5c5b35000001")].

Definition complete : pydict :=
  [("type", JStr "switch"); ("name", JStr "core"); ("model", JStr "EX4300");
   ("mac", JStr "5c5b35000002"); ("serial", JStr "PE3716250001");
   ("status", JStr "connected"); ("site_id", JStr "site-1")].

End Examples.

(* ================================================================== *)
(** ** The script: configuration, headers and the main block *)
(* ================================================================== *)

Module Script.
Import Json Http Out Fetch Display.

(** [os.getenv] once [load_dotenv()] has run. *)
Definition environ : Type := string -> option string.

(** Lines 18-21. *)
Definition make_headers (api_token : string) : headers :=
  [("Authorization", ("Token " ++ api_token)%string);
   ("Content-Type", "application/json")].

(** How the script ends: a [ValueError] of lines 11-15, the end of the
    main block, [sys.exit], or an exception that nothing catches. *)
Inductive ending : Type :=
| ValueError (message : string)
| Completed
| SystemExit (code : Z)
| Traceback (e : exn).

Record script_run : Type := mk_script_run {
  script_end : ending;
  script_requests : list request;
  script_output : list line
}.

(** Lines 7-21 and 116-118: the configuration is read and checked, then
    the devices are fetched and displayed. *)
Definition main (fuel : nat) (env : environ) (srv : server)
  : option script_run :=
  match truthy (env "API_TOKEN") with
  | None =>
      Some (mk_script_run (ValueError "Missing API_TOKEN in .env file") [] [])
  | Some api_token =>
      match truthy (env "ORG_ID") with
      | None =>
          Some (mk_script_run (ValueError "Missing ORG_ID in .env file") [] [])
      | Some org_id =>
          match get_all_devices fuel srv org_id (make_headers api_token) with
          | None => None
          | Some r =>
              match result r with
              | Returned devs =>
                  let (shown, raised) := display_devices devs in
                  Some (mk_script_run
                          (match raised with
                           | None => Completed
                           | Some e => Traceback e
                           end)
                          (requests r) (output r ++ shown))
              | SysExit code =>
                  Some (mk_script_run (SystemExit code) (requests r) (output r))
              | Uncaught e =>
                  Some (mk_script_run (Traceback e) (requests r) (output r))
              end
          end
      end
  end.

End Script.

(* ================================================================== *)
(** ** More vocabulary: kinds of lines, kinds of records *)
(* ================================================================== *)

Module More.
Import Json Http Out Fetch Display Spec.

(** The lines that [display_devices] prints for a collection that is
    not empty. *)
Definition is_listing_line (l : line) : bool :=
  match l with
  | FoundDevices _ | Rule _ _ | DebugFirstType _ | DebugFirstKeys _
  | WarnUnexpectedDevice _ _ | GroupHeader _ _ | DeviceSummary _ _ _ _
  | DeviceDetail _ _ | Blank => true
  | DebugResponseType _ | UnexpectedResponse _ | ErrorFetching _
  | NoDevicesFound => false
  end.

(** The lines that [get_all_devices] prints. *)
Definition is_fetch_line (l : line) : bool :=
  match l with
  | DebugResponseType _ | UnexpectedResponse _ | ErrorFetching _ => true
  | _ => false
  end.


(** The type of every record can be a dictionary key. *)
Definition hashable_types (devs : list json) : Prop :=
  Forall (fun d => hashable (type_of_record d) = true) (records devs).

(** The members of all groups, group after group. *)
Definition all_members (g : groups) : list pydict :=
  List.concat (map snd g).

(** The grouping loop as a fold over the records. *)
Definition add_record (g : groups) (d : pydict) : groups :=
  add_device (type_of_record d) d g.

(** Lines 99-113 after the grouping loop: its exception goes on, or the
    groups are shown. *)
Definition show_groups (grouped : exn + groups) : trace :=
  match grouped with
  | inl e => throw e
  | inr device_types => for_each show_group device_types
  end.

End More.

(* ================================================================== *)
(** ** More samples *)
(* ================================================================== *)

Module MoreExamples.
Import Json Http Out Fetch Display Spec Examples Script.

(** A record whose type is a list, after an element that is no mapping
    and before a good record. *)
Definition list_typed : pydict := [("type", JList []); ("name", JStr "x")].

Definition with_list_type : list json :=
  [JStr "offline"; JDict list_typed; ap1].




Definition null_serial : pydict := [("type", JStr "ap"); ("serial", JNull)].

(** Environments. *)
Definition full_env : environ :=
  fun name =>
    if String.eqb name "API_TOKEN" then Some "t0"
    else if String.eqb name "ORG_ID" then Some "o1"
    else None.

Definition no_org_env : environ :=
  fun name => if String.eqb name "API_TOKEN" then Some "t0" else None.

End MoreExamples.

(* ================================================================== *)
(** ** [get_org_id.py]: the organisation of the token *)
(* ================================================================== *)

Module OrgId.
Import Json Http Out.

(** One [print] of the script. *)
Inductive org_line : Type :=
| OrganizationId (org_id : json)
| NoOrganization
| NoPrivileges.

(** [bool(v)]. *)
Definition truth (v : json) : bool :=
  match v with
  | JNull => false
  | JBool b => b
  | JInt n => negb (n =? 0)%Z
  | JFloat (FFinite q) => negb (Qeq_bool q 0)
  | JFloat _ => true
  | JStr s => negb (String.eqb s EmptyString)
  | JList l => match l with [] => false | _ => true end
  | JDict d => match d with [] => false | _ => true end
  end.

(** Lines 26-32: the [for] loop with its [else]. Only a mapping has
    [get]. *)
Fixpoint scan (privileges : list json) : list org_line * option exn :=
  match privileges with
  | [] => ([NoOrganization], None)
  | JDict privilege :: rest =>
      if py_eqb (get privilege "scope" JNull) (JStr "org")
      then ([OrganizationId (get privilege "org_id" JNull)], None)
      else scan rest
  | _ :: _ => ([], Some AttributeError)
  end.

(** Lines 25-34, on the value of [response.json()]. Only a mapping has
    [get]; [data["privileges"]] is the value that [get] gave, the key
    being there when that value is true. *)
Definition report (data : json) : list org_line * option exn :=
  match data with
  | JDict d =>
      let privileges := get d "privileges" JNull in
      if truth privileges then
        match py_iter privileges with
        | Some items => scan items
        | None => ([], Some TypeError)
        end
      else ([NoPrivileges], None)
  | _ => ([], Some AttributeError)
  end.

(** A privilege that the loop passes over: a mapping whose scope is
    not "org". *)
Definition other_scope (v : json) : bool :=
  match v with
  | JDict privilege =>
      negb (py_eqb (get privilege "scope" JNull) (JStr "org"))
  | _ => false
  end.

End OrgId.

(* ================================================================== *)
(** ** [list_sites.py]: one line for each site *)
(* ================================================================== *)

Module Sites.
Import Json Http Out.

(** What the loop can raise: [KeyError] with the key, or [TypeError]. *)
Inductive site_exn : Type :=
| KeyError (key : string)
| SiteTypeError.

(** [site[key]] for a string [key]: a mapping has the key or raises
    [KeyError]; any other value raises [TypeError]. *)
Definition subscript (site : json) (key : string) : site_exn + json :=
  match site with
  | JDict d =>
      match lookup key d with
      | Some v => inr v
      | None => inl (KeyError key)
      end
  | _ => inl SiteTypeError
  end.

(** The line of a site, with the three values. *)
Inductive site_line : Type :=
| SiteLine (id name address : json).

(** Line 25: the three subscripts, in the order of the f-string. *)
Definition show_site (site : json) : site_exn + site_line :=
  match subscript site "id" with
  | inl e => inl e
  | inr id =>
      match subscript site "name" with
      | inl e => inl e
      | inr name =>
          match subscript site "address" with
          | inl e => inl e
          | inr address => inr (SiteLine id name address)
          end
      end
  end.

(** Lines 24-25: the loop stops at the first site that raises. *)
Fixpoint show_sites (sites : list json) : list site_line * option site_exn :=
  match sites with
  | [] => ([], None)
  | site :: rest =>
      match show_site site with
      | inl e => ([], Some e)
      | inr l => let (ls, e) := show_sites rest in (l :: ls, e)
      end
  end.

(** The loop over the value of [response.json()]: a value that cannot
    be iterated raises [TypeError]. *)
Definition list_sites (sites : json) : list site_line * option site_exn :=
  match py_iter sites with
  | Some items => show_sites items
  | None => ([], Some SiteTypeError)
  end.

(** A site that has the three keys, and its line. *)
Definition complete_site (site : json) : bool :=
  match site with
  | JDict d =>
      match lookup "id" d, lookup "name" d, lookup "address" d with
      | Some _, Some _, Some _ => true
      | _, _, _ => false
      end
  | _ => false
  end.

Definition line_of (site : json) : list site_line :=
  match site with
  | JDict d =>
      [SiteLine (get d "id" JNull) (get d "name" JNull)
                (get d "address" JNull)]
  | _ => []
  end.

End Sites.

(* ================================================================== *)
(** * Properties *)
(* ================================================================== *)

(** ** Strings *)

Module PyStrFacts.
Import PyStr.
Local Open Scope string_scope.

Lemma append_empty_r (s : string) : s ++ EmptyString = s.
Proof. induction s as [|a s IH]; simpl; [reflexivity | now rewrite IH]. Qed.

Lemma append_assoc (x y z : string) : (x ++ y) ++ z = x ++ (y ++ z).
Proof. induction x as [|a x IH]; simpl; [reflexivity | now rewrite IH]. Qed.

Lemma prefix_app (n x y : string) :
  String.prefix n x = true -> String.prefix n (x ++ y) = true.
Proof.
  revert x; induction n as [|a n IH]; intros x H.
  { destruct (x ++ y); reflexivity. }
  destruct x as [|b x]; simpl in *; [discriminate|].
  destruct (Ascii.ascii_dec a b); [now apply IH | discriminate].
Qed.

Lemma contains_app_l (n x y : string) :
  contains n x = true -> contains n (x ++ y) = true.
Proof.
  induction x as [|a x IH]; intros H.
  - simpl in H. rewrite orb_false_r in H.
    destruct n; [|discriminate]. destruct y; reflexivity.
  - simpl in H. apply orb_true_iff in H. cbn [append contains].
    apply orb_true_iff. destruct H as [H|H].
    + left. now apply (prefix_app n (String a x) y).
    + right. now apply IH.
Qed.

Lemma contains_app_r (n x y : string) :
  contains n y = true -> contains n (x ++ y) = true.
Proof.
  intros H. induction x as [|a x IH]; [exact H|].
  cbn [append contains]. rewrite IH. apply orb_true_r.
Qed.

Lemma has_char_app (c : ascii) (x y : string) :
  has_char c (x ++ y) = has_char c x || has_char c y.
Proof.
  induction x as [|a x IH]; [reflexivity|].
  cbn [append has_char]. now rewrite IH, orb_assoc.
Qed.

(** [split] always yields a first piece. *)
Lemma split_cons (sep : ascii) (s : string) :
  exists p ps, split sep s = p :: ps.
Proof.
  destruct s as [|a s]; simpl; [now eexists; eexists|].
  destruct (Ascii.eqb a sep); [now eexists; eexists|].
  destruct (split sep s); now eexists; eexists.
Qed.

(** A text without the separator in front of [y] joins the first piece
    of [y]. *)
Lemma split_app (sep : ascii) (x y : string) :
  has_char sep x = false ->
  split sep (x ++ y) =
  (x ++ hd EmptyString (split sep y)) :: tl (split sep y).
Proof.
  induction x as [|a x IH]; intros H.
  - simpl. destruct (split_cons sep y) as (p & ps & E). now rewrite E.
  - simpl in H. apply orb_false_iff in H. destruct H as [Ha Hx].
    cbn [append split]. rewrite Ha, (IH Hx). reflexivity.
Qed.

Lemma split_app_sep (sep : ascii) (x y : string) :
  has_char sep x = false ->
  split sep (x ++ String sep y) = x :: split sep y.
Proof.
  intros H. rewrite (split_app sep x (String sep y) H).
  cbn [split]. rewrite Ascii.eqb_refl. cbn [hd tl].
  now rewrite append_empty_r.
Qed.

Lemma split_none (sep : ascii) (x : string) :
  has_char sep x = false -> split sep x = [x].
Proof.
  intros H. rewrite <- (append_empty_r x) at 1.
  rewrite (split_app sep x EmptyString H). simpl.
  now rewrite append_empty_r.
Qed.

(** Splitting undoes joining, for pieces without the separator. *)
Lemma split_concat (sep : ascii) (l : list string) :
  l <> [] ->
  Forall (fun e => has_char sep e = false) l ->
  split sep (String.concat (String sep EmptyString) l) = l.
Proof.
  induction l as [|x l IH]; intros Hne Hall; [congruence|].
  inversion Hall as [|? ? Hx Hl]; subst.
  destruct l as [|y l].
  - simpl. now apply split_none.
  - cbn [String.concat]. cbn [append].
    rewrite (split_app_sep sep x _ Hx). f_equal.
    apply IH; [discriminate | assumption].
Qed.

Lemma contains_concat (n sep : string) (before after : list string)
  (e : string) :
  contains n e = true ->
  contains n (String.concat sep (before ++ e :: after)%list) = true.
Proof.
  intros H. induction before as [|x before IH].
  - simpl. destruct after; [exact H | now apply contains_app_l].
  - cbn [app String.concat].
    destruct (before ++ e :: after)%list eqn:E.
    + destruct before; discriminate.
    + apply contains_app_r, contains_app_r. exact IH.
Qed.

Lemma concat_empty_cons (x : string) (xs : list string) :
  String.concat EmptyString (x :: xs) = x ++ String.concat EmptyString xs.
Proof.
  destruct xs; cbn [String.concat append].
  - now rewrite append_empty_r.
  - reflexivity.
Qed.

Lemma py_chars_nil (s : string) : py_chars s = [] -> s = EmptyString.
Proof.
  destruct s as [|a s]; [reflexivity|]. cbn [py_chars].
  destruct (py_chars s) as [|c cs]; [discriminate|].
  destruct c as [|b c]; [discriminate|].
  destruct (is_continuation b); discriminate.
Qed.

(** The characters of a string, joined, give the string back. *)
Lemma py_chars_concat (s : string) :
  String.concat EmptyString (py_chars s) = s.
Proof.
  induction s as [|a r IH]; [reflexivity|]. cbn [py_chars].
  destruct (py_chars r) as [|c cs] eqn:E.
  - apply py_chars_nil in E. now subst.
  - rewrite concat_empty_cons in IH. destruct c as [|b c].
    + rewrite concat_empty_cons. cbn [append] in *. now rewrite IH.
    + destruct (is_continuation b).
      * rewrite concat_empty_cons. cbn [append] in *. now rewrite IH.
      * rewrite !concat_empty_cons. cbn [append] in *. now rewrite IH.
Qed.

(** Each of them is one code point. *)
Lemma py_chars_one_char (s : string) : Forall one_char (py_chars s).
Proof.
  induction s as [|a r IH]; [constructor|]. cbn [py_chars].
  destruct (py_chars r) as [|c cs]; [repeat constructor|].
  inversion IH as [|? ? Hc Hcs]; subst.
  destruct c as [|b c]; [contradiction|].
  destruct (is_continuation b) eqn:Eb.
  - constructor; [|exact Hcs]. cbn [one_char py_len] in *.
    now rewrite Eb, Hc.
  - constructor; [reflexivity|]. now constructor.
Qed.

End PyStrFacts.

(** ** The Link header *)

Module LinkFacts.
Import PyStr PyStrFacts Json Http Out Fetch Spec.

Lemma find_next_skip (before rest : list string) :
  Forall (fun e => contains rel_next e = false) before ->
  find_next (before ++ rest) = find_next rest.
Proof.
  induction 1 as [|e before He _ IH]; [reflexivity|].
  cbn [app find_next]. now rewrite He.
Qed.

(** The text between the first [<] of an entry and the [>] after it. *)
Lemma entry_url (a u b : string) :
  has_char "<" a = false ->
  has_char "<" u = false ->
  has_char ">" u = false ->
  exists t,
    nth_error (split "<" (link_entry a u b)) 1 = Some t /\
    nth_error (split ">" t) 0 = Some u.
Proof.
  intros Ha Hu Hu'.
  destruct (split_cons "<" b) as (p & ps & Eb).
  exists (u ++ String ">" p)%string. split.
  - unfold link_entry. cbn [append].
    rewrite (split_app_sep "<" a _ Ha). cbn [nth_error].
    rewrite (split_app "<" u _ Hu). cbn [split Ascii.eqb Bool.eqb].
    rewrite Eb. reflexivity.
  - rewrite (split_app_sep ">" u p Hu'). reflexivity.
Qed.

Lemma next_url_absent (header : string) :
  contains rel_next header = false -> next_url header = inr None.
Proof. intros H. unfold next_url. now rewrite H. Qed.

(** The loop finds the URL of the first [rel="next"] entry. *)
Lemma next_url_entry_at (header u : string) :
  entry_at header u -> next_url header = inr (Some u).
Proof.
  intros (before & a & b & after & -> & Hcomma & Hbefore & Hnext & Ha & Hu
          & Hu').
  unfold next_url.
  rewrite (contains_concat rel_next "," before after _ Hnext).
  rewrite split_concat; [| now destruct before | exact Hcomma].
  rewrite (find_next_skip _ _ Hbefore). cbn [find_next]. rewrite Hnext.
  destruct (entry_url a u b Ha Hu Hu') as (t & -> & ->). reflexivity.
Qed.

Lemma next_url_points_to (header u : string) :
  points_to header u -> next_url header = inr (Some u).
Proof. intros [_ H]. now apply next_url_entry_at. Qed.

(** The usual header [<u>; rel="next"] points to [u]. *)
Lemma points_to_plain (u : string) :
  u <> EmptyString ->
  has_char "," u = false ->
  has_char "<" u = false ->
  has_char ">" u = false ->
  points_to ("<" ++ u ++ ">; " ++ rel_next) u.
Proof.
  intros Hne Hc Hl Hg. split; [exact Hne|].
  exists [], EmptyString, ("; " ++ rel_next)%string, [].
  assert (E : link_entry EmptyString u ("; " ++ rel_next)
              = ("<" ++ u ++ ">; " ++ rel_next)%string).
  { unfold link_entry. cbn [append]. do 2 f_equal. }
  cbn [app String.concat]. rewrite E.
  repeat split; try assumption; try constructor.
  - cbn [append has_char Ascii.eqb Bool.eqb orb].
    rewrite has_char_app, Hc. reflexivity.
  - constructor.
  - apply (contains_app_r rel_next "<" (u ++ ">; " ++ rel_next)).
    apply contains_app_r. apply (contains_app_r rel_next ">; " rel_next).
    reflexivity.
Qed.

End LinkFacts.

(** ** The pagination loop *)

Module FetchFacts.
Import PyStr PyStrFacts Json Http Out Fetch Spec LinkFacts.

(** The page's records are what [collect] adds. *)
Lemma collect_records (st : state) (batch : json) (items : list json) :
  page_records batch = Some items ->
  collect st batch = Next (set_devices st (devices st ++ items)).
Proof.
  destruct batch; cbn [page_records collect]; try discriminate.
  - now intros [= ->].
  - unfold extend.
    destruct (lookup "data" d) as [v|].
    + now intros ->.
    + destruct (lookup "results" d) as [v|].
      * now intros ->.
      * now intros [= <-].
Qed.

(** A page without records leaves the loop, by [break] or by a
    [TypeError]. *)
Lemma collect_no_records (st : state) (batch : json) :
  page_records batch = None ->
  collect st batch = Break (print st (UnexpectedResponse batch)) \/
  collect st batch = Raise TypeError st.
Proof.
  destruct batch; cbn [page_records collect]; try discriminate; auto.
  unfold extend.
  destruct (lookup "data" d) as [v|].
  - intros ->. now right.
  - destruct (lookup "results" d) as [v|]; [|discriminate].
    intros ->. now right.
Qed.

Lemma truthy_some (u : string) : u <> EmptyString -> truthy (Some u) = Some u.
Proof. destruct u; [congruence | reflexivity]. Qed.

(** Each pass through the body sends one request. *)
Lemma collect_sent (st : state) (batch : json) :
  sent (flow_state (collect st batch)) = sent st.
Proof.
  destruct batch; try reflexivity. cbn [collect]. unfold extend.
  destruct (lookup "data" d) as [v|].
  - destruct (py_iter v); reflexivity.
  - destruct (lookup "results" d) as [v|]; [|reflexivity].
    destruct (py_iter v); reflexivity.
Qed.

Lemma follow_link_sent (st : state) (r : response) :
  sent (flow_state (follow_link st r)) = sent st.
Proof.
  unfold follow_link.
  destruct (next_url (headers_get (resp_headers r) "Link" EmptyString));
    reflexivity.
Qed.

(** [extend] with a value that cannot be iterated: [TypeError]. *)
Lemma extend_not_iterable (st : state) (v : json) :
  py_iter v = None -> extend st v = Raise TypeError st.
Proof. unfold extend. now intros ->. Qed.

(** The run has ended in the goal; [Hsent] tells which requests the last
    pass has sent. *)
Ltac run_ends Hsent :=
  eexists; split; [reflexivity|]; cbn [requests finish];
  rewrite Hsent, length_app; cbn; lia.

Section Loop.

Variable srv : server.
Variable hdrs : headers.

Lemma body_good_page (st : state)
  (u : string) (r : response) (batch : json) (items : list json) :
  srv (List.length (sent st)) (mk_request u hdrs) = Answer r ->
  raises_for_status r = false ->
  json_body r = Some batch ->
  page_records batch = Some items ->
  body srv hdrs st u =
  follow_link (collected st (mk_request u hdrs) batch items) r.
Proof.
  intros Hsrv Hok Hbody Hrec. unfold body.
  rewrite Hsrv, Hok, Hbody.
  rewrite (collect_records _ batch items Hrec). reflexivity.
Qed.

(** The body of the loop on a success with a JSON body. *)
Lemma body_answer (st : state) (u : string)
  (r : response) (batch : json) :
  srv (List.length (sent st)) (mk_request u hdrs) = Answer r ->
  raises_for_status r = false ->
  json_body r = Some batch ->
  body srv hdrs st u =
  match collect (print (send st (mk_request u hdrs))
                       (DebugResponseType (type_of batch))) batch with
  | Next st3 => follow_link st3 r
  | other => other
  end.
Proof. intros Hsrv Hok Hbody. unfold body. now rewrite Hsrv, Hok, Hbody. Qed.

(** A body that is neither a list nor a dictionary: [break]. *)
Lemma body_unexpected (st : state)
  (u : string) (r : response) (batch : json) :
  srv (List.length (sent st)) (mk_request u hdrs) = Answer r ->
  raises_for_status r = false ->
  json_body r = Some batch ->
  is_list batch = false ->
  is_dict batch = false ->
  body srv hdrs st u =
  Break (print (print (send st (mk_request u hdrs))
                      (DebugResponseType (type_of batch)))
               (UnexpectedResponse batch)).
Proof.
  intros Hsrv Hok Hbody Hl Hd.
  rewrite (body_answer st u r batch Hsrv Hok Hbody).
  destruct batch; try discriminate; reflexivity.
Qed.

Lemma while_unexpected (st : state)
  (u : string) (r : response) (batch : json) (fuel : nat) :
  url st = Some u ->
  u <> EmptyString ->
  srv (List.length (sent st)) (mk_request u hdrs) = Answer r ->
  raises_for_status r = false ->
  json_body r = Some batch ->
  is_list batch = false ->
  is_dict batch = false ->
  0 < fuel ->
  while_url fuel srv hdrs st =
  Some (mk_run (Returned (devices st))
               (sent st ++ [mk_request u hdrs])
               (printed st ++ [DebugResponseType (type_of batch);
                               UnexpectedResponse batch])).
Proof.
  intros Hurl Hne Hsrv Hok Hbody Hl Hd Hfuel.
  destruct fuel as [|fuel]; [inversion Hfuel|].
  cbn [while_url]. rewrite Hurl. destruct u as [|c u]; [congruence|].
  cbn [truthy].
  rewrite (body_unexpected st _ r batch Hsrv Hok Hbody Hl Hd).
  unfold finish, print, send. cbn [devices sent printed].
  now rewrite <- app_assoc.
Qed.


(** More fuel does not change a finished run. *)
Lemma while_url_more (fuel : nat) :
  forall (st : state) (r : run) (k : nat),
    while_url fuel srv hdrs st = Some r ->
    while_url (fuel + k) srv hdrs st = Some r.
Proof.
  induction fuel as [|fuel IH]; intros st r k H; [discriminate|].
  cbn [Nat.add while_url] in *.
  destruct (truthy (url st)) as [u|]; [|exact H].
  destruct (body srv hdrs st u); try exact H. now apply IH.
Qed.

(** From any point of the loop, a chain of pages is followed to its
    end. *)
Lemma while_chain (pages : list page) :
  forall (st : state) (u : string) (fuel : nat),
    url st = Some u ->
    u <> EmptyString ->
    chain points_to srv hdrs (List.length (sent st)) u pages ->
    List.length pages < fuel ->
    while_url fuel srv hdrs st =
    Some (mk_run (Returned (devices st ++ List.concat (map page_items pages)))
                 (sent st ++ map (page_request hdrs) pages)
                 (printed st ++ List.concat (map page_debug pages))).
Proof.
  induction pages as [|p rest IH]; intros st u fuel Hurl Hne Hchain Hfuel;
    [contradiction|].
  destruct Hchain as (Hp & Hsrv & (Hok & batch & Hbody & Hrec) & Hrest).
  destruct fuel as [|fuel]; [inversion Hfuel|].
  cbn [while_url]. rewrite Hurl, (truthy_some u Hne).
  rewrite (body_good_page st u _ batch _ Hsrv Hok Hbody Hrec).
  unfold follow_link. fold (link_of (page_response p)).
  assert (Hdbg : page_debug p = [DebugResponseType (type_of batch)]).
  { unfold page_debug. now rewrite Hbody. }
  assert (Hreq : page_request hdrs p = mk_request u hdrs).
  { unfold page_request. now rewrite Hp. }
  destruct rest as [|q rest].
  - rewrite (next_url_absent _ Hrest).
    destruct fuel as [|fuel]; [cbn in Hfuel; lia|].
    cbn. rewrite Hdbg, Hreq, !app_nil_r. reflexivity.
  - destruct Hrest as [Hpt Hchain].
    rewrite (next_url_points_to _ _ Hpt).
    rewrite (IH _ (page_url q) fuel).
    + cbn [collected set_url set_devices print send devices sent printed
           map List.concat].
      rewrite Hdbg, Hreq, <- !app_assoc. reflexivity.
    + reflexivity.
    + exact (proj1 Hpt).
    + cbn [collected set_url set_devices print send devices sent printed].
      rewrite length_app, Nat.add_comm. exact Hchain.
    + cbn [List.length] in *. lia.
Qed.

Lemma body_sent (st : state) (u : string) :
  sent (flow_state (body srv hdrs st u)) = sent st ++ [mk_request u hdrs].
Proof.
  unfold body.
  destruct (srv (List.length (sent st)) (mk_request u hdrs)) as [reason|r];
    [reflexivity|].
  destruct (raises_for_status r); [reflexivity|].
  destruct (json_body r) as [batch|]; [|reflexivity].
  pose proof (collect_sent
                (print (send st (mk_request u hdrs))
                       (DebugResponseType (type_of batch))) batch) as Hc.
  destruct (collect _ batch) as [st3| | |]; try exact Hc.
  rewrite follow_link_sent. exact Hc.
Qed.

(** A pass reaches the bottom of the body only through the Link header
    of a response. *)
Lemma body_next_inv (st st' : state)
  (u : string) :
  body srv hdrs st u = Next st' ->
  exists r,
    srv (List.length (sent st)) (mk_request u hdrs) = Answer r /\
    next_url (link_of r) = inr (url st').
Proof.
  unfold body.
  destruct (srv (List.length (sent st)) (mk_request u hdrs)) as [reason|r];
    [discriminate|].
  destruct (raises_for_status r); [discriminate|].
  destruct (json_body r) as [batch|]; [|discriminate].
  destruct (collect _ batch) as [st3| | |]; try discriminate.
  unfold follow_link. fold (link_of r).
  destruct (next_url (link_of r)) as [e|last] eqn:En; [discriminate|].
  intros [= <-]. exists r. split; [reflexivity | exact En].
Qed.

(** If the response to the request after [k] full passes has no
    [rel="next"], the loop ends, after [k + 1] requests at most. *)
Lemma while_terminates (k : nat) :
  forall st : state,
    (forall st' u r,
        passes k srv hdrs st = Some st' ->
        truthy (url st') = Some u ->
        srv (List.length (sent st')) (mk_request u hdrs) = Answer r ->
        contains rel_next (link_of r) = false) ->
    exists rn,
      while_url (k + 2) srv hdrs st = Some rn /\
      List.length (requests rn) <= List.length (sent st) + k + 1.
Proof.
  induction k as [|k IH]; intros st Hlast.
  - cbn [Nat.add while_url].
    destruct (truthy (url st)) as [u|] eqn:Eu.
    2:{ eexists. split; [reflexivity|]. cbn. lia. }
    pose proof (body_sent st u) as Hsent.
    destruct (body srv hdrs st u) as [st'|st'|c st'|e st'] eqn:Eb;
      cbn [flow_state] in Hsent.
    + destruct (body_next_inv st st' u Eb) as (r & Hsrv & Hnext).
      rewrite (next_url_absent _ (Hlast st u r eq_refl Eu Hsrv)) in Hnext.
      injection Hnext as Hnext. rewrite <- Hnext. cbn [truthy].
      run_ends Hsent.
    + run_ends Hsent.
    + run_ends Hsent.
    + run_ends Hsent.
  - cbn [Nat.add while_url].
    destruct (truthy (url st)) as [u|] eqn:Eu.
    2:{ eexists. split; [reflexivity|]. cbn. lia. }
    pose proof (body_sent st u) as Hsent.
    destruct (body srv hdrs st u) as [st'|st'|c st'|e st'] eqn:Eb;
      cbn [flow_state] in Hsent.
    + destruct (IH st') as (rn & Hrun & Hlen).
      { intros st'' u' r Hpass. apply Hlast.
        cbn [passes]. now rewrite Eu, Eb. }
      exists rn. split; [exact Hrun|].
      rewrite Hsent, length_app in Hlen. cbn in Hlen. lia.
    + run_ends Hsent.
    + run_ends Hsent.
    + run_ends Hsent.
Qed.

End Loop.

End FetchFacts.


(** ** Grouping and display *)

Module DisplayFacts.
Import PyStr Json Out Display Spec.

Lemma and_then_ok (l1 l2 : list line) (e : option exn) :
  (l1, None) ;; (l2, e) = (l1 ++ l2, e).
Proof. reflexivity. Qed.

Lemma string_eqb_sym (a b : string) : String.eqb a b = String.eqb b a.
Proof.
  destruct (String.eqb_spec a b) as [->|Hab].
  - now rewrite String.eqb_refl.
  - symmetry. apply String.eqb_neq. congruence.
Qed.

Lemma mem_filter (x t : string) (l : list string) :
  mem t (filter (fun y => negb (String.eqb x y)) l) =
  negb (String.eqb x t) && mem t l.
Proof.
  induction l as [|y l IH]; cbn [filter mem existsb].
  - now rewrite andb_false_r.
  - fold (mem t l).
    destruct (String.eqb_spec x y) as [->|Hxy]; cbn [negb].
    + fold (mem t (filter (fun y0 => negb (String.eqb y y0)) l)).
      rewrite IH. destruct (String.eqb y t); reflexivity.
    + cbn [existsb].
      fold (mem t (filter (fun y0 => negb (String.eqb x y0)) l)).
      rewrite IH.
      destruct (String.eqb_spec y t) as [->|Hyt]; [|reflexivity].
      apply String.eqb_neq in Hxy. now rewrite Hxy.
Qed.

Lemma mem_first_seen (t : string) (l : list string) :
  mem t (first_seen l) = mem t l.
Proof.
  induction l as [|x l IH]; [reflexivity|].
  cbn [first_seen mem existsb].
  fold (mem t (filter (fun y => negb (String.eqb x y)) (first_seen l))).
  fold (mem t l). rewrite mem_filter, IH.
  destruct (String.eqb x t), (mem t l); reflexivity.
Qed.

(** A new value goes last; a value already seen changes nothing. *)
Lemma first_seen_snoc (t : string) (l : list string) :
  first_seen (l ++ [t]) =
  if mem t l then first_seen l else first_seen l ++ [t].
Proof.
  induction l as [|x l IH]; [reflexivity|].
  cbn [app first_seen mem existsb]. fold (mem t l). rewrite IH.
  destruct (mem t l).
  - now rewrite orb_true_r.
  - rewrite orb_false_r, filter_app. cbn [filter].
    destruct (String.eqb x t); cbn [negb].
    + now rewrite app_nil_r.
    + reflexivity.
Qed.

Lemma first_seen_nodup (l : list string) : NoDup (first_seen l).
Proof.
  induction l as [|x l IH]; [constructor|].
  cbn [first_seen]. constructor.
  - intros Hin. apply filter_In in Hin. destruct Hin as [_ Hx].
    now rewrite String.eqb_refl in Hx.
  - now apply NoDup_filter.
Qed.

Lemma mem_false_not_in (t : string) (l : list string) :
  mem t l = false -> ~ In t l.
Proof.
  intros Hm Hin. unfold mem in Hm.
  assert (H : existsb (fun t' => String.eqb t' t) l = true).
  { apply existsb_exists. exists t. split; [exact Hin | apply String.eqb_refl]. }
  congruence.
Qed.

(** *** Records of the data model *)

Lemma plain_record_field (d : pydict) (k : string) :
  plain_record d = true ->
  In k ["type"; "name"; "model"; "mac"; "serial"; "status"; "site_id"] ->
  string_or_absent k d = true.
Proof.
  unfold plain_record. rewrite forallb_forall. intros H Hin. now apply H.
Qed.

Lemma get_string (d : pydict) (k default : string) :
  string_or_absent k d = true ->
  exists s, get d k (JStr default) = JStr s.
Proof.
  unfold string_or_absent, get.
  destruct (lookup k d) as [[]|]; try discriminate; intros _; now eexists.
Qed.

Lemma plain_type (d : pydict) :
  plain_record d = true -> type_of_record d = JStr (type_name d).
Proof.
  intros H. unfold type_name.
  destruct (get_string d "type" "Unknown") as [s Hs].
  - apply (plain_record_field d "type" H). cbn. auto.
  - unfold type_of_record in *. now rewrite Hs.
Qed.

(** A record of the data model is shown on three lines, without a
    raise. *)
Lemma show_device_plain (d : pydict) :
  plain_record d = true -> show_device d = (record_lines d, None).
Proof.
  intros H. unfold record_lines, show_device.
  destruct (get_string d "name" "Unnamed") as [n ->];
    [apply (plain_record_field d "name" H); cbn; auto 10|].
  destruct (get_string d "model" "N/A") as [m ->];
    [apply (plain_record_field d "model" H); cbn; auto 10|].
  destruct (get_string d "serial" "N/A") as [se ->];
    [apply (plain_record_field d "serial" H); cbn; auto 10|].
  reflexivity.
Qed.

Lemma for_each_show_device (ds : list pydict) :
  Forall (fun d => plain_record d = true) ds ->
  for_each show_device ds = (List.concat (map record_lines ds), None).
Proof.
  induction 1 as [|d ds Hd _ IH]; [reflexivity|].
  cbn [for_each map List.concat].
  now rewrite (show_device_plain d Hd), IH, and_then_ok.
Qed.

(** *** The grouping loop *)

Lemma members_snoc (t : string) (pre : list pydict) (d : pydict) :
  members t (pre ++ [d]) =
  members t pre ++ (if String.eqb (type_name d) t then [d] else []).
Proof. unfold members. rewrite filter_app. reflexivity. Qed.

Lemma members_none (t : string) (recs : list pydict) :
  mem t (map type_name recs) = false -> members t recs = [].
Proof.
  induction recs as [|d recs IH]; [reflexivity|].
  cbn [map mem existsb members filter]. intros H.
  apply orb_false_iff in H. destruct H as [Hd Hrest].
  rewrite Hd. now apply IH.
Qed.

Lemma has_group_map (t : string) (f : string -> list pydict)
  (l : list string) :
  has_group (JStr t) (map (fun t' => (JStr t', f t')) l) = mem t l.
Proof.
  induction l as [|x l IH]; [reflexivity|].
  cbn [map has_group mem existsb py_eqb]. now rewrite IH.
Qed.

Lemma append_to_map (t : string) (d : pydict) (f : string -> list pydict)
  (l : list string) :
  NoDup l ->
  append_to (JStr t) d (map (fun t' => (JStr t', f t')) l) =
  map (fun t' => (JStr t', f t' ++ if String.eqb t t' then [d] else [])) l.
Proof.
  induction 1 as [|x l Hx Hl IH]; [reflexivity|].
  cbn [map append_to py_eqb]. rewrite (string_eqb_sym t x).
  destruct (String.eqb_spec x t) as [->|Hxt].
  - f_equal. apply map_ext_in. intros t' Hin.
    destruct (String.eqb_spec t t') as [->|_]; [contradiction|].
    now rewrite app_nil_r.
  - rewrite app_nil_r. f_equal. exact IH.
Qed.

(** One more record: its group receives it, or a new last group is
    made for it. *)
Lemma add_device_grouped (pre : list pydict) (d : pydict) :
  add_device (JStr (type_name d)) d (grouped pre) = grouped (pre ++ [d]).
Proof.
  unfold add_device, grouped.
  rewrite has_group_map, mem_first_seen, map_app. cbn [map].
  rewrite first_seen_snoc.
  destruct (mem (type_name d) (map type_name pre)) eqn:Em.
  - rewrite append_to_map by apply first_seen_nodup.
    apply map_ext. intros t'. now rewrite members_snoc.
  - rewrite map_app. cbn [map]. f_equal.
    + apply map_ext_in. intros t' Hin. rewrite members_snoc.
      destruct (String.eqb_spec (type_name d) t') as [E|_];
        [|now rewrite app_nil_r].
      exfalso. subst t'.
      apply (mem_false_not_in (type_name d) (first_seen (map type_name pre))).
      * now rewrite mem_first_seen.
      * exact Hin.
    + rewrite members_snoc, (members_none _ _ Em), String.eqb_refl.
      reflexivity.
Qed.

(** The loop on a collection whose records follow the data model: a
    warning for each other element, and the records grouped. *)
Lemma group_devices_grouped (devs : list json) :
  forall pre : list pydict,
    Forall (fun d => plain_record d = true) (records devs) ->
    group_devices devs (grouped pre) =
    (warnings devs, inr (grouped (pre ++ records devs))).
Proof.
  induction devs as [|v devs IH]; intros pre Hall.
  - cbn. now rewrite app_nil_r.
  - destruct v;
      try (cbn [group_devices records strangers warnings map] in *;
           rewrite (IH pre Hall); reflexivity).
    cbn [records] in Hall. inversion Hall as [|? ? Hd Hrest]; subst.
    cbn [group_devices records strangers warnings].
    fold (type_of_record d). rewrite (plain_type d Hd). cbn [hashable].
    rewrite add_device_grouped.
    etransitivity; [exact (IH (pre ++ [d]) Hrest)|].
    now rewrite <- app_assoc.
Qed.

Lemma members_plain (t : string) (recs : list pydict) :
  Forall (fun d => plain_record d = true) recs ->
  Forall (fun d => plain_record d = true) (members t recs).
Proof.
  intros H. apply Forall_forall. intros d Hin.
  apply filter_In in Hin. destruct Hin as [Hin _].
  rewrite Forall_forall in H. now apply H.
Qed.

Lemma for_each_show_group (recs : list pydict) (ts : list string) :
  Forall (fun d => plain_record d = true) recs ->
  for_each show_group (map (fun t => (JStr t, members t recs)) ts) =
  (List.concat (map (fun t => group_lines t (members t recs)) ts), None).
Proof.
  intros Hall. induction ts as [|t ts IH]; [reflexivity|].
  cbn [map for_each show_group List.concat].
  rewrite (for_each_show_device _ (members_plain t recs Hall)), IH.
  reflexivity.
Qed.

(** What [display_devices] prints for a collection, not empty, whose
    records follow the data model. *)
Lemma display_devices_plain (devs : list json) :
  devs <> [] ->
  Forall (fun d => plain_record d = true) (records devs) ->
  display_devices devs =
  (preamble devs ++ warnings devs ++
   List.concat (map (fun t => group_lines t (members t (records devs)))
                    (first_seen (map type_name (records devs)))),
   None).
Proof.
  intros Hne Hall. destruct devs as [|first rest]; [congruence|].
  unfold display_devices.
  change (@nil (json * list pydict)) with (grouped []).
  rewrite (group_devices_grouped (first :: rest) [] Hall).
  cbn [app]. unfold grouped at 1.
  rewrite (for_each_show_group _ _ Hall).
  unfold preamble. destruct first; reflexivity.
Qed.

(** *** Reading the lines printed *)

Lemma headers_of_app (l1 l2 : list line) :
  headers_of (l1 ++ l2) = headers_of l1 ++ headers_of l2.
Proof. apply flat_map_app. Qed.

Lemma warned_app (l1 l2 : list line) :
  warned (l1 ++ l2) = warned l1 ++ warned l2.
Proof. apply flat_map_app. Qed.

Lemma headers_of_preamble (devs : list json) : headers_of (preamble devs) = [].
Proof. destruct devs as [|[] rest]; reflexivity. Qed.


Lemma headers_of_warnings (devs : list json) : headers_of (warnings devs) = [].
Proof.
  unfold warnings. induction (strangers devs) as [|v l IH]; [reflexivity|].
  exact IH.
Qed.


(** The lines of a record are a summary, a detail and a blank line, or
    a beginning of these. *)
Lemma record_lines_shape (d : pydict) :
  headers_of (record_lines d) = [] /\ warned (record_lines d) = [].
Proof.
  unfold record_lines, show_device.
  destruct (formattable (get d "name" (JStr "Unnamed")) &&
            formattable (get d "model" (JStr "N/A")));
    destruct (formattable (get d "serial" (JStr "N/A")));
    split; reflexivity.
Qed.

Lemma records_lines_shape (ds : list pydict) :
  headers_of (List.concat (map record_lines ds)) = [] /\
  warned (List.concat (map record_lines ds)) = [].
Proof.
  induction ds as [|d ds [IHh IHw]]; [split; reflexivity|].
  cbn [map List.concat]. rewrite headers_of_app, warned_app, IHh, IHw.
  destruct (record_lines_shape d) as [-> ->]. split; reflexivity.
Qed.

Lemma headers_of_groups (recs : list pydict) (ts : list string) :
  headers_of (List.concat (map (fun t => group_lines t (members t recs)) ts))
  = map (fun t => (t, List.length (members t recs))) ts.
Proof.
  induction ts as [|t ts IH]; [reflexivity|].
  cbn [map List.concat]. rewrite headers_of_app, IH.
  unfold group_lines. cbn [headers_of flat_map app].
  change (flat_map _ ?l) with (headers_of l).
  now rewrite (proj1 (records_lines_shape _)).
Qed.


Lemma in_first_seen (t : string) (l : list string) :
  In t l -> In t (first_seen l).
Proof.
  induction l as [|x l IH]; [contradiction|].
  intros [->|Hin]; [now left|]. cbn [first_seen].
  destruct (String.eqb_spec x t) as [->|Hxt]; [now left|].
  right. apply filter_In. split; [now apply IH|].
  apply String.eqb_neq in Hxt. now rewrite Hxt.
Qed.

Lemma in_records (d : pydict) (devs : list json) :
  In (JDict d) devs -> In d (records devs).
Proof.
  induction devs as [|v devs IH]; [contradiction|].
  intros [->|Hin]; [now left|].
  destruct v; cbn [records]; try now apply IH.
  right. now apply IH.
Qed.


(** A record is in the group of its type, and its lines are among the
    lines of the groups. *)
Lemma in_own_group (d : pydict) (recs : list pydict) :
  In d recs -> In d (members (type_name d) recs).
Proof.
  intros Hin. apply filter_In. split; [exact Hin | apply String.eqb_refl].
Qed.

Lemma in_groups_lines (d : pydict) (recs : list pydict) (l : line) :
  In d recs ->
  In l (record_lines d) ->
  In l (List.concat (map (fun t => group_lines t (members t recs))
                         (first_seen (map type_name recs)))).
Proof.
  intros Hd Hl. apply in_concat.
  exists (group_lines (type_name d) (members (type_name d) recs)). split.
  - apply in_map_iff. exists (type_name d). split; [reflexivity|].
    apply in_first_seen, in_map, Hd.
  - unfold group_lines. right. right. apply in_concat.
    exists (record_lines d). split; [|exact Hl].
    apply in_map, in_own_group, Hd.
Qed.

Lemma get_shows (d : pydict) (k default : string) :
  shows k default d (get d k (JStr default)).
Proof.
  unfold shows, get. split.
  - now intros ->.
  - now intros x ->.
Qed.

End DisplayFacts.

(* ================================================================== *)
(** * Main results *)
(* ================================================================== *)

Import PyStr PyStrFacts Json Http Out Fetch Display Spec.
Import LinkFacts FetchFacts DisplayFacts Examples.

(** ** Following the pages *)

Lemma devices_url_not_empty (org_id : string) :
  devices_url org_id <> EmptyString.
Proof. unfold devices_url. cbn [append]. discriminate. Qed.




(** ** The Link header that ends the loop *)




(** ** The page with an unexpected body *)

(** C3, as stated, fails: the first page has a JSON string for a body
    and a Link header that gives the second page; the call prints the
    message, sends no second request and returns. *)
Lemma get_all_devices_stops_at_unexpected_page :
  names_next (link_of (ok_response (Some (plain_link second_url)) notice))
             second_url /\
  forall fuel, 0 < fuel ->
    get_all_devices fuel (serve notice_table) "o1" auth_headers =
    Some (mk_run (Returned [])
                 [mk_request first_url auth_headers]
                 [DebugResponseType TStr; UnexpectedResponse notice]).
Proof.
  split.
  - exists EmptyString, EmptyString. vm_compute. reflexivity.
  - intros fuel Hfuel. unfold get_all_devices.
    rewrite (while_unexpected (serve notice_table) auth_headers (initial "o1")
               first_url
               (ok_response (Some (plain_link second_url)) notice) notice fuel);
      try reflexivity; [discriminate | exact Hfuel].
Qed.

(** C3 (amended): when the body of a page is neither a sequence nor a
    mapping, [get_all_devices] prints the message with the body and stops
    the pagination: whatever the Link header of that page, no further
    request is sent and the devices accumulated so far are returned. *)
Theorem unexpected_body_stops_pagination :
  forall (srv : server) (hdrs : headers) (st : state) (u : string)
         (r : response) (batch : json),
    url st = Some u ->
    u <> EmptyString ->
    srv (List.length (sent st)) (mk_request u hdrs) = Answer r ->
    raises_for_status r = false ->
    json_body r = Some batch ->
    is_list batch = false ->
    is_dict batch = false ->
    forall fuel, 0 < fuel ->
    exists rn,
      while_url fuel srv hdrs st = Some rn /\
      result rn = Returned (devices st) /\
      requests rn = sent st ++ [mk_request u hdrs] /\
      output rn = printed st ++ [DebugResponseType (type_of batch);
                                 UnexpectedResponse batch].
Proof.
  intros srv hdrs st u r batch Hurl Hne Hsrv Hok Hbody Hl Hd fuel Hfuel.
  eexists. split.
  - exact (while_unexpected srv hdrs st u r batch fuel Hurl Hne Hsrv Hok Hbody
             Hl Hd Hfuel).
  - repeat split.
Qed.

Lemma unexpected_body_stops_pagination_witness :
  exists rn,
    while_url 1 (serve notice_table) auth_headers (initial "o1") = Some rn /\
    result rn = Returned [] /\
    requests rn = [mk_request first_url auth_headers] /\
    output rn = [DebugResponseType TStr; UnexpectedResponse notice].
Proof.
  apply (unexpected_body_stops_pagination
           (serve notice_table) auth_headers (initial "o1") first_url
           (ok_response (Some (plain_link second_url)) notice) notice
           eq_refl ltac:(discriminate) eq_refl eq_refl eq_refl eq_refl eq_refl
           1).
  lia.
Defined.

(** ** The shapes of a page *)

(** C4: for a page whose body is a mapping, the elements of the value at
    [data] are appended; without [data], the elements of the value at
    [results]; with neither key, the mapping itself, as one record. For
    a page whose body is neither a sequence nor a mapping, the loop is
    left at once: the page adds no record, no further request is sent
    and the devices accumulated so far are returned. *)
Theorem page_shapes :
  (forall (srv : server) (hdrs : headers) (st : state) (u : string)
          (r : response) (d : pydict),
      srv (List.length (sent st)) (mk_request u hdrs) = Answer r ->
      raises_for_status r = false ->
      json_body r = Some (JDict d) ->
      (forall v items,
          lookup "data" d = Some v -> py_iter v = Some items ->
          body srv hdrs st u =
          follow_link (collected st (mk_request u hdrs) (JDict d) items) r) /\
      (forall v items,
          lookup "data" d = None -> lookup "results" d = Some v ->
          py_iter v = Some items ->
          body srv hdrs st u =
          follow_link (collected st (mk_request u hdrs) (JDict d) items) r) /\
      (lookup "data" d = None -> lookup "results" d = None ->
       body srv hdrs st u =
       follow_link (collected st (mk_request u hdrs) (JDict d) [JDict d]) r))
  /\
  (forall (srv : server) (hdrs : headers) (st : state) (u : string)
          (r : response) (batch : json),
      url st = Some u ->
      u <> EmptyString ->
      srv (List.length (sent st)) (mk_request u hdrs) = Answer r ->
      raises_for_status r = false ->
      json_body r = Some batch ->
      is_list batch = false ->
      is_dict batch = false ->
      forall fuel, 0 < fuel ->
      exists out,
        while_url fuel srv hdrs st =
        Some (mk_run (Returned (devices st))
                     (sent st ++ [mk_request u hdrs]) out)).
Proof.
  split.
  - intros srv hdrs st u r d Hsrv Hok Hbody.
    repeat split.
    + intros v items Hdata Hiter.
      apply (body_good_page srv hdrs st u r (JDict d) items Hsrv Hok Hbody).
      cbn [page_records]. now rewrite Hdata.
    + intros v items Hdata Hres Hiter.
      apply (body_good_page srv hdrs st u r (JDict d) items Hsrv Hok Hbody).
      cbn [page_records]. now rewrite Hdata, Hres.
    + intros Hdata Hres.
      apply (body_good_page srv hdrs st u r (JDict d) _ Hsrv Hok Hbody).
      cbn [page_records]. now rewrite Hdata, Hres.
  - intros srv hdrs st u r batch Hurl Hne Hsrv Hok Hbody Hl Hd fuel Hfuel.
    eexists.
    exact (while_unexpected srv hdrs st u r batch fuel Hurl Hne Hsrv Hok Hbody
             Hl Hd Hfuel).
Qed.

Lemma page_shapes_witness :
  body (serve (table_of two_pages)) auth_headers after_first_page second_url =
  follow_link
    (collected after_first_page (mk_request second_url auth_headers)
               (JDict [("results", JList [sw1])]) [sw1])
    (ok_response None (JDict [("results", JList [sw1])]))
  /\
  exists out,
    while_url 1 (serve notice_table) auth_headers (initial "o1") =
    Some (mk_run (Returned []) [mk_request first_url auth_headers] out).
Proof.
  split.
  - apply (proj1 (proj2 (proj1 page_shapes
             (serve (table_of two_pages)) auth_headers after_first_page
             second_url (ok_response None (JDict [("results", JList [sw1])]))
             [("results", JList [sw1])] eq_refl eq_refl eq_refl))
             (JList [sw1]) [sw1] eq_refl eq_refl eq_refl).
  - apply (proj2 page_shapes
             (serve notice_table) auth_headers (initial "o1") first_url
             (ok_response (Some (plain_link second_url)) notice) notice
             eq_refl ltac:(discriminate) eq_refl eq_refl eq_refl eq_refl
             eq_refl 1).
    lia.
Defined.

(** ** Failed requests *)

(** C5, as stated, fails for a status that is neither 2xx nor 4xx nor
    5xx: [raise_for_status] lets a 300 response pass, its body is read
    as a page and the collection is returned. *)
Lemma get_all_devices_accepts_status_300 :
  is_2xx multiple_choices = false /\
  get_all_devices 2 (serve [(first_url, multiple_choices)]) "o1" auth_headers =
  Some (mk_run (Returned [ap1])
               [mk_request first_url auth_headers]
               [DebugResponseType TList]).
Proof. split; vm_compute; reflexivity. Qed.

(** C5 (amended): at every point of the pagination loop, a request that
    fails at the network level, or a response with a 4xx or 5xx status,
    ends the process at once with exit status 1: no further request is
    sent and no collection is returned. *)
Theorem failed_request_exits :
  forall (srv : server) (hdrs : headers) (st : state) (u : string),
    url st = Some u ->
    u <> EmptyString ->
    (exists reason,
        srv (List.length (sent st)) (mk_request u hdrs) =
        ConnectionFailed reason) \/
    (exists r,
        srv (List.length (sent st)) (mk_request u hdrs) = Answer r /\
        (400 <= status_code r < 600)%Z) ->
    forall fuel, 0 < fuel ->
    exists e,
      while_url fuel srv hdrs st =
      Some (mk_run (SysExit 1)
                   (sent st ++ [mk_request u hdrs])
                   (printed st ++ [ErrorFetching e])).
Proof.
  intros srv hdrs st u Hurl Hne Hfail fuel Hfuel.
  destruct fuel as [|fuel]; [inversion Hfuel|].
  cbn [while_url]. rewrite Hurl, (truthy_some u Hne). unfold body.
  destruct Hfail as [[reason ->] | (r & -> & Hlo & Hhi)].
  - exists (ConnectionError reason). reflexivity.
  - exists (HTTPError (status_code r)).
    assert (Hraise : raises_for_status r = true).
    { unfold raises_for_status. apply andb_true_iff. split.
      - now apply Z.leb_le.
      - now apply Z.ltb_lt. }
    rewrite Hraise. reflexivity.
Qed.

Lemma failed_request_exits_witness :
  exists e,
    while_url 1 (serve failing_table) auth_headers
              (mk_state [ap1] (Some second_url)
                        [mk_request first_url auth_headers]
                        [DebugResponseType TList]) =
    Some (mk_run (SysExit 1)
                 [mk_request first_url auth_headers;
                  mk_request second_url auth_headers]
                 [DebugResponseType TList; ErrorFetching e]).
Proof.
  apply (failed_request_exits (serve failing_table) auth_headers
           (mk_state [ap1] (Some second_url)
                     [mk_request first_url auth_headers]
                     [DebugResponseType TList])
           second_url eq_refl ltac:(discriminate)
           ltac:(right; exists unavailable; split;
                 [reflexivity | simpl; lia]) 1).
  lia.
Defined.

(** ** A value at [data] or [results] that is not a sequence *)

(** C10: when the value at [data] (or, without [data], at [results]) of
    a mapping is not a sequence but can be iterated, nothing checks its
    type: each of its elements is appended as a record. For a string
    these are its characters, one record each; for a mapping, its
    keys. *)
Theorem iterable_value_is_spread :
  forall (srv : server) (hdrs : headers) (st : state) (u : string)
         (r : response) (d : pydict) (v : json) (items : list json),
    srv (List.length (sent st)) (mk_request u hdrs) = Answer r ->
    raises_for_status r = false ->
    json_body r = Some (JDict d) ->
    lookup "data" d = Some v \/
    (lookup "data" d = None /\ lookup "results" d = Some v) ->
    is_list v = false ->
    py_iter v = Some items ->
    body srv hdrs st u =
    follow_link (collected st (mk_request u hdrs) (JDict d) items) r /\
    (forall s, v = JStr s ->
       items = map JStr (py_chars s) /\
       Forall one_char (py_chars s) /\
       String.concat EmptyString (py_chars s) = s) /\
    (forall d', v = JDict d' -> items = map JStr (keys d')).
Proof.
  intros srv hdrs st u r d v items Hsrv Hok Hbody Hkey Hl Hiter.
  split; [|split].
  - apply (body_good_page srv hdrs st u r (JDict d) items Hsrv Hok Hbody).
    cbn [page_records].
    destruct Hkey as [-> | [-> ->]]; exact Hiter.
  - intros s ->. cbn [py_iter] in Hiter. injection Hiter as <-.
    split; [reflexivity|]. split.
    + apply py_chars_one_char.
    + apply py_chars_concat.
  - intros d' ->. cbn [py_iter] in Hiter. now injection Hiter as <-.
Qed.

Lemma iterable_value_is_spread_witness :
  body (serve text_data_table) auth_headers (initial "o1") first_url =
  follow_link
    (collected (initial "o1") (mk_request first_url auth_headers) text_data
               [JStr "a"; JStr "b"; JStr "c"])
    text_data_response.
Proof.
  apply (iterable_value_is_spread
           (serve text_data_table) auth_headers (initial "o1") first_url
           text_data_response [("data", JStr "abc")] (JStr "abc")
           [JStr "a"; JStr "b"; JStr "c"]
           eq_refl eq_refl eq_refl (or_introl eq_refl) eq_refl eq_refl).
Defined.

(** ** Termination *)

Lemma cyclic_body (st : state) :
  body (serve cyclic_table) auth_headers st first_url =
  Next (set_url (collected st (mk_request first_url auth_headers)
                           (JList [ap1]) [ap1])
                (Some first_url)).
Proof.
  rewrite (body_good_page (serve cyclic_table) auth_headers st first_url
             cyclic_response (JList [ap1]) [ap1]); reflexivity.
Qed.

(** On the cyclic server every pass asks for the same URL again and
    appends the same record again. *)
Lemma cyclic_passes (n : nat) :
  forall st : state,
    url st = Some first_url ->
    passes n (serve cyclic_table) auth_headers st =
    Some (mk_state (devices st ++ repeat ap1 n) (Some first_url)
            (sent st ++ repeat (mk_request first_url auth_headers) n)
            (printed st ++ repeat (DebugResponseType TList) n)).
Proof.
  induction n as [|n IH]; intros st Hurl.
  - destruct st as [ds u se pr]. cbn in *. subst u.
    now rewrite !app_nil_r.
  - cbn [passes]. rewrite Hurl.
    change (truthy (Some first_url)) with (Some first_url). cbv beta iota.
    rewrite cyclic_body. rewrite IH by reflexivity.
    cbn [collected set_url set_devices print send devices sent printed
         repeat].
    now rewrite <- !app_assoc.
Qed.

Lemma cyclic_diverges (fuel : nat) :
  forall st : state,
    url st = Some first_url ->
    while_url fuel (serve cyclic_table) auth_headers st = None.
Proof.
  induction fuel as [|fuel IH]; intros st Hurl; [reflexivity|].
  cbn [while_url]. rewrite Hurl.
  change (truthy (Some first_url)) with (Some first_url). cbv beta iota.
  rewrite cyclic_body. now apply IH.
Qed.

(** C6: the loop is a single pass without detection of pages already
    seen. It ends whenever the links end: if the response to the request
    made after [k] full passes has no [rel="next"], the call finishes
    after [k + 1] requests at most. And on a server whose page points
    back to the URL already asked for, the same request is sent again
    and again and the call never finishes. *)
Theorem pagination_ends_only_with_the_links :
  (forall (srv : server) (org_id : string) (hdrs : headers) (k : nat),
      (forall st u r,
          passes k srv hdrs (initial org_id) = Some st ->
          truthy (url st) = Some u ->
          srv (List.length (sent st)) (mk_request u hdrs) = Answer r ->
          contains rel_next (link_of r) = false) ->
      exists rn,
        get_all_devices (k + 2) srv org_id hdrs = Some rn /\
        List.length (requests rn) <= k + 1) /\
  (names_next (link_of cyclic_response) first_url /\
   (forall n, exists st,
       passes n (serve cyclic_table) auth_headers (initial "o1") = Some st /\
       sent st = repeat (mk_request first_url auth_headers) n /\
       devices st = repeat ap1 n) /\
   forall fuel,
     get_all_devices fuel (serve cyclic_table) "o1" auth_headers = None).
Proof.
  split; [|split; [|split]].
  - intros srv org_id hdrs k Hlast. unfold get_all_devices.
    exact (while_terminates srv hdrs k (initial org_id) Hlast).
  - exists EmptyString, EmptyString. vm_compute. reflexivity.
  - intros n. eexists. split.
    + exact (cyclic_passes n (initial "o1") eq_refl).
    + split; reflexivity.
  - intros fuel. exact (cyclic_diverges fuel (initial "o1") eq_refl).
Qed.

Lemma pagination_ends_only_with_the_links_witness :
  exists rn,
    get_all_devices 3 (serve (table_of two_pages)) "o1" auth_headers
      = Some rn /\
    List.length (requests rn) <= 2.
Proof.
  apply (proj1 pagination_ends_only_with_the_links
           (serve (table_of two_pages)) "o1" auth_headers 1).
  intros st u r Hpass Hu Hsrv.
  vm_compute in Hpass. injection Hpass as <-.
  vm_compute in Hu. injection Hu as <-.
  vm_compute in Hsrv. injection Hsrv as <-.
  vm_compute. reflexivity.
Defined.


(** ** Groups, warnings and defaults *)

(** C7: the groups are shown in the order in which their types are
    first seen from the front of the collection, each under a header
    with the type name, upper-cased in the text of the line, and the
    number of its members. For types [ap], [ap], [switch] in that order
    the headers are AP with 2 and SWITCH with 1. *)
Theorem groups_in_first_seen_order :
  (forall devs : list json,
      Forall (fun d => plain_record d = true) (records devs) ->
      snd (display_devices devs) = None /\
      headers_of (fst (display_devices devs)) =
      map (fun t => (t, List.length (members t (records devs))))
          (first_seen (map type_name (records devs)))) /\
  (forall (upper : string -> string) (t : string) (n : nat),
      render upper (GroupHeader t n) =
      Some (String newline (upper t ++ " (" ++ decimal n ++ " devices)"))) /\
  (forall d1 d2 d3 : pydict,
      Forall (fun d => plain_record d = true) [d1; d2; d3] ->
      type_name d1 = "ap" -> type_name d2 = "ap" -> type_name d3 = "switch" ->
      headers_of (fst (display_devices [JDict d1; JDict d2; JDict d3])) =
      [("ap", 2); ("switch", 1)] /\
      map (render ascii_upper) [GroupHeader "ap" 2; GroupHeader "switch" 1] =
      [Some (String newline "AP (2 devices)");
       Some (String newline "SWITCH (1 devices)")]).
Proof.
  assert (G : forall devs : list json,
             Forall (fun d => plain_record d = true) (records devs) ->
             snd (display_devices devs) = None /\
             headers_of (fst (display_devices devs)) =
             map (fun t => (t, List.length (members t (records devs))))
                 (first_seen (map type_name (records devs)))).
  { intros devs Hall. destruct devs as [|v devs]; [split; reflexivity|].
    rewrite display_devices_plain by (discriminate || exact Hall).
    split; [reflexivity|]. cbn [fst].
    rewrite !headers_of_app, headers_of_preamble, headers_of_warnings.
    apply headers_of_groups. }
  split; [exact G|]. split; [reflexivity|].
  intros d1 d2 d3 Hall H1 H2 H3. split; [|reflexivity].
  rewrite (proj2 (G [JDict d1; JDict d2; JDict d3] Hall)).
  cbn [records map first_seen]. rewrite H1, H2, H3.
  cbn [first_seen filter String.eqb Ascii.eqb Bool.eqb negb andb map].
  unfold members. cbn [filter]. rewrite H1, H2, H3. reflexivity.
Qed.

Lemma groups_in_first_seen_order_witness :
  snd (display_devices inventory) = None /\
  headers_of (fst (display_devices inventory)) = [("ap", 2); ("switch", 1)].
Proof.
  apply (proj1 groups_in_first_seen_order inventory).
  repeat constructor.
Defined.



(** C9: for every mapping record of the data model, a missing [type]
    puts the record under the key "Unknown", a missing [name] is shown
    as "Unnamed", and a missing [model], [mac], [serial], [status] or
    [site_id] as "N/A"; a field that is present is shown with its own
    value, left-aligned in its column where the line has columns. *)
Theorem missing_fields_take_defaults :
  forall d : pydict,
    plain_record d = true ->
    shows "type" "Unknown" d (JStr (type_name d)) /\
    exists name model mac status serial site_id : string,
      shows "name" "Unnamed" d (JStr name) /\
      shows "model" "N/A" d (JStr model) /\
      shows "mac" "N/A" d (JStr mac) /\
      shows "status" "N/A" d (JStr status) /\
      shows "serial" "N/A" d (JStr serial) /\
      shows "site_id" "N/A" d (JStr site_id) /\
      show_device d =
        ([DeviceSummary (JStr name) (JStr model) (JStr mac) (JStr status);
          DeviceDetail (JStr serial) (JStr site_id); Blank], None) /\
      (forall upper,
          render upper
            (DeviceSummary (JStr name) (JStr model) (JStr mac) (JStr status))
          = Some ("  " ++ bullet ++ " " ++ ljust 20 name ++ " | Model: " ++
                  ljust 15 model ++ " | MAC: " ++ mac ++ " | Status: " ++
                  status)%string /\
          render upper (DeviceDetail (JStr serial) (JStr site_id))
          = Some ("    Serial: " ++ ljust 20 serial ++ " | Site ID: " ++
                  site_id)%string) /\
      (forall devs,
          Forall (fun d' => plain_record d' = true) (records devs) ->
          In (JDict d) devs ->
          In (type_name d) (map fst (headers_of (fst (display_devices devs))))
          /\
          In (DeviceSummary (JStr name) (JStr model) (JStr mac) (JStr status))
             (fst (display_devices devs)) /\
          In (DeviceDetail (JStr serial) (JStr site_id))
             (fst (display_devices devs))).
Proof.
  intros d H.
  assert (F : forall k, In k ["type"; "name"; "model"; "mac"; "serial";
                              "status"; "site_id"] ->
                        string_or_absent k d = true)
    by (intros k; apply plain_record_field, H).
  split.
  { rewrite <- (plain_type d H). apply get_shows. }
  destruct (get_string d "name" "Unnamed") as [n Hn]; [apply F; cbn; auto 10|].
  destruct (get_string d "model" "N/A") as [m Hm]; [apply F; cbn; auto 10|].
  destruct (get_string d "mac" "N/A") as [a Ha]; [apply F; cbn; auto 10|].
  destruct (get_string d "status" "N/A") as [st Hst]; [apply F; cbn; auto 10|].
  destruct (get_string d "serial" "N/A") as [se Hse]; [apply F; cbn; auto 10|].
  destruct (get_string d "site_id" "N/A") as [si Hsi]; [apply F; cbn; auto 10|].
  exists n, m, a, st, se, si.
  assert (Hshow : show_device d =
                  ([DeviceSummary (JStr n) (JStr m) (JStr a) (JStr st);
                    DeviceDetail (JStr se) (JStr si); Blank], None)).
  { unfold show_device. rewrite Hn, Hm, Ha, Hst, Hse, Hsi. reflexivity. }
  split; [rewrite <- Hn; apply get_shows|].
  split; [rewrite <- Hm; apply get_shows|].
  split; [rewrite <- Ha; apply get_shows|].
  split; [rewrite <- Hst; apply get_shows|].
  split; [rewrite <- Hse; apply get_shows|].
  split; [rewrite <- Hsi; apply get_shows|].
  split; [exact Hshow|].
  split; [intros upper; split; reflexivity|].
  intros devs Hall Hin.
  assert (Hne : devs <> []) by (destruct devs; [contradiction | discriminate]).
  assert (Hrec : In d (records devs)) by now apply in_records.
  rewrite (display_devices_plain devs Hne Hall). cbn [fst].
  split; [|split].
  - rewrite !headers_of_app, headers_of_preamble, headers_of_warnings.
    rewrite headers_of_groups. cbn [app]. rewrite map_map. cbn [fst].
    rewrite map_id.
    now apply in_first_seen, in_map.
  - apply in_or_app. right. apply in_or_app. right.
    apply (in_groups_lines d (records devs)); [exact Hrec|].
    unfold record_lines. rewrite Hshow. cbn. auto.
  - apply in_or_app. right. apply in_or_app. right.
    apply (in_groups_lines d (records devs)); [exact Hrec|].
    unfold record_lines. rewrite Hshow. cbn. auto.
Qed.

Lemma missing_fields_take_defaults_witness :
  shows "type" "Unknown" nameless (JStr (type_name nameless)) /\
  exists name model mac status serial site_id : string,
    shows "name" "Unnamed" nameless (JStr name) /\
    shows "model" "N/A" nameless (JStr model) /\
    shows "mac" "N/A" nameless (JStr mac) /\
    shows "status" "N/A" nameless (JStr status) /\
    shows "serial" "N/A" nameless (JStr serial) /\
    shows "site_id" "N/A" nameless (JStr site_id) /\
    show_device nameless =
      ([DeviceSummary (JStr name) (JStr model) (JStr mac) (JStr status);
        DeviceDetail (JStr serial) (JStr site_id); Blank], None) /\
    (forall upper,
        render upper
          (DeviceSummary (JStr name) (JStr model) (JStr mac) (JStr status))
        = Some ("  " ++ bullet ++ " " ++ ljust 20 name ++ " | Model: " ++
                ljust 15 model ++ " | MAC: " ++ mac ++ " | Status: " ++
                status)%string /\
        render upper (DeviceDetail (JStr serial) (JStr site_id))
        = Some ("    Serial: " ++ ljust 20 serial ++ " | Site ID: " ++
                site_id)%string) /\
    (forall devs,
        Forall (fun d' => plain_record d' = true) (records devs) ->
        In (JDict nameless) devs ->
        In (type_name nameless)
           (map fst (headers_of (fst (display_devices devs)))) /\
        In (DeviceSummary (JStr name) (JStr model) (JStr mac) (JStr status))
           (fst (display_devices devs)) /\
        In (DeviceDetail (JStr serial) (JStr site_id))
           (fst (display_devices devs))).
Proof.
  apply (missing_fields_take_defaults nameless).
  reflexivity.
Defined.

(* ================================================================== *)
(** * Further properties of the loop *)
(* ================================================================== *)

Module LoopFacts.

Lemma collect_devices (st : state) (batch : json) :
  exists more,
    devices (flow_state (collect st batch)) = devices st ++ more.
Proof.
  destruct batch; cbn [collect];
    try (exists []; cbn; now rewrite app_nil_r).
  - now exists l.
  - unfold extend.
    destruct (lookup "data" d) as [v|].
    + destruct (py_iter v) as [items|];
        [now exists items | exists []; cbn; now rewrite app_nil_r].
    + destruct (lookup "results" d) as [v|]; [|now eexists].
      destruct (py_iter v) as [items|];
        [now exists items | exists []; cbn; now rewrite app_nil_r].
Qed.

Lemma follow_link_devices (st : state) (r : response) :
  devices (flow_state (follow_link st r)) = devices st.
Proof.
  unfold follow_link.
  destruct (next_url (headers_get (resp_headers r) "Link" EmptyString));
    reflexivity.
Qed.

Lemma collect_printed (st : state) (batch : json) :
  match collect st batch with
  | Next st' | Raise _ st' => printed st' = printed st
  | Break st' => printed st' = printed st ++ [UnexpectedResponse batch]
  | Exit _ _ => False
  end.
Proof.
  destruct batch; cbn [collect]; try reflexivity.
  unfold extend.
  destruct (lookup "data" d) as [v|].
  - destruct (py_iter v); reflexivity.
  - destruct (lookup "results" d) as [v|]; [|reflexivity].
    destruct (py_iter v); reflexivity.
Qed.

Lemma collect_raise (st st' : state) (batch : json) (e : exn) :
  collect st batch = Raise e st' ->
  e = TypeError /\
  exists d v,
    batch = JDict d /\
    (lookup "data" d = Some v \/
     (lookup "data" d = None /\ lookup "results" d = Some v)) /\
    py_iter v = None.
Proof.
  destruct batch; cbn [collect]; try discriminate.
  unfold extend.
  destruct (lookup "data" d) as [v|] eqn:Ed.
  - destruct (py_iter v) eqn:Ev; [discriminate|].
    intros [= <- _]. split; [reflexivity|]. exists d, v. auto.
  - destruct (lookup "results" d) as [v|] eqn:Er; [|discriminate].
    destruct (py_iter v) eqn:Ev; [discriminate|].
    intros [= <- _]. split; [reflexivity|]. exists d, v. auto.
Qed.

Lemma follow_link_flow (st : state) (r : response) :
  match follow_link st r with
  | Next st' => printed st' = printed st
  | Raise e st' =>
      printed st' = printed st /\ e = IndexError /\
      contains rel_next (link_of r) = true
  | Break _ | Exit _ _ => False
  end.
Proof.
  unfold follow_link. fold (link_of r). unfold next_url.
  destruct (contains rel_next (link_of r)) eqn:Ec; [|reflexivity].
  induction (split "," (link_of r)) as [|link rest IH]; [reflexivity|].
  cbn [find_next]. destruct (contains rel_next link); [|exact IH].
  destruct (nth_error (split "<" link) 1) as [t|]; [|now repeat split].
  destruct (nth_error (split ">" t) 0); [reflexivity | now repeat split].
Qed.

Section Run.

Variable srv : server.
Variable hdrs : headers.

(** What one pass through the body prints, by the way the pass ends. *)
Lemma body_printed (st : state) (u : string) :
  match body srv hdrs st u with
  | Next st' | Raise _ st' =>
      exists t, printed st' = printed st ++ [DebugResponseType t]
  | Break st' =>
      exists b,
        printed st' =
        printed st ++ [DebugResponseType (type_of b); UnexpectedResponse b]
  | Exit code st' =>
      code = 1%Z /\ exists e, printed st' = printed st ++ [ErrorFetching e]
  end.
Proof.
  unfold body, fail.
  destruct (srv (List.length (sent st)) (mk_request u hdrs)) as [reason|r].
  { split; [reflexivity|]. now eexists. }
  destruct (raises_for_status r). { split; [reflexivity|]. now eexists. }
  destruct (json_body r) as [batch|]; [|split; [reflexivity|]; now eexists].
  pose proof (collect_printed
                (print (send st (mk_request u hdrs))
                       (DebugResponseType (type_of batch))) batch) as Hc.
  destruct (collect _ batch) as [st3|st3|c st3|e st3]; cbn in Hc.
  - pose proof (follow_link_flow st3 r) as Hf.
    destruct (follow_link st3 r) as [st4|st4|c st4|e st4]; try contradiction.
    + exists (type_of batch). now rewrite Hf, Hc.
    + exists (type_of batch). destruct Hf as [-> _]. now rewrite Hc.
  - exists batch. rewrite Hc, <- app_assoc. reflexivity.
  - contradiction.
  - exists (type_of batch). now rewrite Hc.
Qed.

(** Why a pass can end in an exception that nothing catches. *)
Lemma body_raise (st st' : state) (u : string) (e : exn) :
  body srv hdrs st u = Raise e st' ->
  exists r,
    srv (List.length (sent st)) (mk_request u hdrs) = Answer r /\
    raises_for_status r = false /\
    ((e = TypeError /\
      exists d v,
        json_body r = Some (JDict d) /\
        (lookup "data" d = Some v \/
         (lookup "data" d = None /\ lookup "results" d = Some v)) /\
        py_iter v = None) \/
     (e = IndexError /\ contains rel_next (link_of r) = true)).
Proof.
  unfold body.
  destruct (srv (List.length (sent st)) (mk_request u hdrs)) as [reason|r];
    [discriminate|].
  destruct (raises_for_status r) eqn:Eok; [discriminate|].
  destruct (json_body r) as [batch|] eqn:Eb; [|discriminate].
  destruct (collect _ batch) as [st3|st3|c st3|e3 st3] eqn:Ec;
    try discriminate.
  - intros Hf. pose proof (follow_link_flow st3 r) as Hfl.
    rewrite Hf in Hfl. destruct Hfl as (_ & -> & Hc).
    exists r. split; [reflexivity|]. split; [exact Eok|].
    right. now split.
  - intros [= <- <-]. apply collect_raise in Ec.
    destruct Ec as (-> & d & v & -> & Hk & Hv).
    exists r. split; [reflexivity|]. split; [exact Eok|].
    left. split; [reflexivity|]. exists d, v. now repeat split.
Qed.

Lemma body_devices (st : state) (u : string) :
  exists more,
    devices (flow_state (body srv hdrs st u)) = devices st ++ more.
Proof.
  unfold body.
  destruct (srv (List.length (sent st)) (mk_request u hdrs)) as [reason|r];
    [exists []; cbn; now rewrite app_nil_r|].
  destruct (raises_for_status r); [exists []; cbn; now rewrite app_nil_r|].
  destruct (json_body r) as [batch|];
    [|exists []; cbn; now rewrite app_nil_r].
  destruct (collect_devices
              (print (send st (mk_request u hdrs))
                     (DebugResponseType (type_of batch))) batch)
    as [more Hc].
  exists more.
  destruct (collect _ batch) as [st3| | |]; try exact Hc.
  rewrite follow_link_devices. exact Hc.
Qed.

(** Full passes first, the rest of the loop after. *)
Lemma while_passes (n : nat) :
  forall (st st' : state) (fuel : nat),
    passes n srv hdrs st = Some st' ->
    while_url (n + fuel) srv hdrs st = while_url fuel srv hdrs st'.
Proof.
  induction n as [|n IH]; intros st st' fuel H.
  - now injection H as ->.
  - cbn [passes Nat.add while_url] in *.
    destruct (truthy (url st)) as [u|]; [|discriminate].
    destruct (body srv hdrs st u); try discriminate. now apply IH.
Qed.

(** What a finished run has printed and sent, from the state [st] on:
    a debug line for each response read, then nothing more, or the
    message for an unexpected body, or the error message. *)
Lemma while_transcript (fuel : nat) :
  forall (st : state) (r : run),
    while_url fuel srv hdrs st = Some r ->
    exists ts tail,
      output r = printed st ++ map DebugResponseType ts ++ tail /\
      match result r with
      | Returned _ =>
          List.length (requests r) = List.length (sent st) + List.length ts /\
          (tail = [] \/ exists b, tail = [UnexpectedResponse b])
      | SysExit code =>
          code = 1%Z /\
          List.length (requests r) =
            List.length (sent st) + S (List.length ts) /\
          exists e, tail = [ErrorFetching e]
      | Uncaught e =>
          List.length (requests r) = List.length (sent st) + List.length ts /\
          tail = [] /\ (e = IndexError \/ e = TypeError)
      end.
Proof.
  induction fuel as [|fuel IH]; intros st r H; [discriminate|].
  cbn [while_url] in H.
  destruct (truthy (url st)) as [u|].
  2:{ injection H as <-. exists [], []. cbn. rewrite app_nil_r.
      split; [reflexivity|]. split; [lia | now left]. }
  pose proof (body_printed st u) as Hp.
  pose proof (body_sent srv hdrs st u) as Hs.
  destruct (body srv hdrs st u) as [st'|st'|c st'|e st'] eqn:Eb;
    cbn [flow_state] in Hs.
  - destruct Hp as [t Ht].
    destruct (IH st' r H) as (ts & tail & Hout & Hres).
    exists (t :: ts), tail. split.
    + rewrite Hout, Ht, <- app_assoc. reflexivity.
    + rewrite Hs, length_app in Hres. cbn [List.length] in *.
      destruct (result r).
      * destruct Hres as [Hlen Htail]. split; [lia | exact Htail].
      * destruct Hres as (Hc & Hlen & Htail). repeat split; [exact Hc | lia | exact Htail].
      * destruct Hres as (Hlen & Htail & He). repeat split; [lia | exact Htail | exact He].
  - injection H as <-. destruct Hp as [b Hb].
    exists [type_of b], [UnexpectedResponse b].
    cbn [finish output result requests map app List.length].
    split; [exact Hb|]. rewrite Hs, length_app. cbn [List.length].
    split; [reflexivity | right; now exists b].
  - injection H as <-. destruct Hp as [-> [e He]].
    exists [], [ErrorFetching e].
    cbn [finish output result requests map app List.length].
    split; [exact He|]. rewrite Hs, length_app. cbn [List.length].
    split; [reflexivity|]. split; [lia | now exists e].
  - injection H as <-. destruct Hp as [t Ht].
    exists [t], [].
    cbn [finish output result requests map app List.length].
    split; [exact Ht|]. rewrite Hs, length_app. cbn [List.length].
    split; [reflexivity|]. split; [reflexivity|].
    destruct (body_raise st st' u e Eb) as (r0 & _ & _ & [[-> _]|[-> _]]);
      auto.
Qed.

(** The requests of a finished run: those sent before, then requests
    that carry the headers of the caller, the first of them to [url]. *)
Lemma while_requests (fuel : nat) :
  forall (st : state) (r : run),
    while_url fuel srv hdrs st = Some r ->
    exists more,
      requests r = sent st ++ more /\
      Forall (fun rq => req_headers rq = hdrs) more /\
      (forall u, truthy (url st) = Some u ->
                 exists rest, more = mk_request u hdrs :: rest).
Proof.
  induction fuel as [|fuel IH]; intros st r H; [discriminate|].
  cbn [while_url] in H.
  destruct (truthy (url st)) as [u|].
  2:{ injection H as <-. exists []. cbn. rewrite app_nil_r.
      repeat split; [constructor | discriminate]. }
  pose proof (body_sent srv hdrs st u) as Hs.
  destruct (body srv hdrs st u) as [st'|st'|c st'|e st'];
    cbn [flow_state] in Hs.
  - destruct (IH st' r H) as (more & Hreq & Hall & _).
    exists (mk_request u hdrs :: more). split; [|split].
    + rewrite Hreq, Hs, <- app_assoc. reflexivity.
    + constructor; [reflexivity | exact Hall].
    + intros u' [= <-]. now exists more.
  - injection H as <-. exists [mk_request u hdrs].
    repeat split; [exact Hs | repeat constructor |].
    intros u' [= <-]. now exists [].
  - injection H as <-. exists [mk_request u hdrs].
    repeat split; [exact Hs | repeat constructor |].
    intros u' [= <-]. now exists [].
  - injection H as <-. exists [mk_request u hdrs].
    repeat split; [exact Hs | repeat constructor |].
    intros u' [= <-]. now exists [].
Qed.

(** What is returned begins with what the state had collected. *)
Lemma while_devices (fuel : nat) :
  forall (st : state) (r : run) (devs : list json),
    while_url fuel srv hdrs st = Some r ->
    result r = Returned devs ->
    exists more, devs = devices st ++ more.
Proof.
  induction fuel as [|fuel IH]; intros st r devs H Hres; [discriminate|].
  cbn [while_url] in H.
  destruct (truthy (url st)) as [u|].
  2:{ injection H as <-. cbn in Hres. injection Hres as <-.
      exists []. now rewrite app_nil_r. }
  destruct (body_devices st u) as [more Hd].
  destruct (body srv hdrs st u) as [st'|st'|c st'|e st'];
    cbn [flow_state] in Hd.
  - destruct (IH st' r devs H Hres) as [more' ->].
    exists (more ++ more'). now rewrite Hd, <- app_assoc.
  - injection H as <-. cbn in Hres. injection Hres as <-. now exists more.
  - injection H as <-. discriminate.
  - injection H as <-. discriminate.
Qed.


End Run.

End LoopFacts.

Import LoopFacts.

(** X1: whatever the server does, a call that finishes has sent its
    first request to the devices URL of the organisation, and every
    request of the call carries the headers that the caller gave. *)
Theorem requests_carry_the_headers :
  forall (fuel : nat) (srv : server) (org_id : string) (hdrs : headers)
         (r : run),
    get_all_devices fuel srv org_id hdrs = Some r ->
    (exists rest, requests r = mk_request (devices_url org_id) hdrs :: rest) /\
    Forall (fun rq => req_headers rq = hdrs) (requests r).
Proof.
  intros fuel srv org_id hdrs r H. unfold get_all_devices in H.
  destruct (while_requests srv hdrs fuel (initial org_id) r H)
    as (more & Hreq & Hall & Hfirst).
  cbn [initial sent app] in Hreq. rewrite Hreq. split; [|exact Hall].
  apply Hfirst. cbn [initial url]. apply truthy_some, devices_url_not_empty.
Qed.

Lemma requests_carry_the_headers_witness :
  (exists rest,
      [mk_request first_url auth_headers; mk_request second_url auth_headers]
      = mk_request (devices_url "o1") auth_headers :: rest) /\
  Forall (fun rq => req_headers rq = auth_headers)
         [mk_request first_url auth_headers;
          mk_request second_url auth_headers].
Proof.
  apply (requests_carry_the_headers 3 (serve (table_of two_pages)) "o1"
           auth_headers
           (mk_run (Returned [ap1; ap2; sw1])
                   [mk_request first_url auth_headers;
                    mk_request second_url auth_headers]
                   [DebugResponseType TList; DebugResponseType TDict])
           eq_refl).
Defined.

(** X2: the collection only grows: what the loop has collected after
    any number of full passes is the beginning of what the call
    returns. *)
Theorem collected_devices_are_kept :
  forall (n fuel : nat) (srv : server) (org_id : string) (hdrs : headers)
         (st : state) (r : run) (devs : list json),
    passes n srv hdrs (initial org_id) = Some st ->
    get_all_devices fuel srv org_id hdrs = Some r ->
    result r = Returned devs ->
    exists more, devs = devices st ++ more.
Proof.
  intros n fuel srv org_id hdrs st r devs Hpass Hrun Hres.
  unfold get_all_devices in Hrun.
  apply (while_url_more srv hdrs fuel _ _ n) in Hrun.
  rewrite Nat.add_comm, (while_passes srv hdrs n _ st fuel Hpass) in Hrun.
  exact (while_devices srv hdrs fuel st r devs Hrun Hres).
Qed.

Lemma collected_devices_are_kept_witness :
  exists more, [ap1; ap2; sw1] = [ap1; ap2] ++ more.
Proof.
  apply (collected_devices_are_kept 1 3 (serve (table_of two_pages)) "o1"
           auth_headers after_first_page
           (mk_run (Returned [ap1; ap2; sw1])
                   [mk_request first_url auth_headers;
                    mk_request second_url auth_headers]
                   [DebugResponseType TList; DebugResponseType TDict])
           [ap1; ap2; sw1] eq_refl eq_refl eq_refl).
Defined.

(** X3: when the call ends the process, the exit status is 1, the last
    line printed is the error message, the lines before it are one
    debug line for each earlier response, and the failed request is the
    last one sent. *)
Theorem exit_status_is_1 :
  forall (fuel : nat) (srv : server) (org_id : string) (hdrs : headers)
         (r : run) (code : Z),
    get_all_devices fuel srv org_id hdrs = Some r ->
    result r = SysExit code ->
    code = 1%Z /\
    exists ts e,
      output r = map DebugResponseType ts ++ [ErrorFetching e] /\
      List.length (requests r) = S (List.length ts).
Proof.
  intros fuel srv org_id hdrs r code H Hres. unfold get_all_devices in H.
  destruct (while_transcript srv hdrs fuel (initial org_id) r H)
    as (ts & tail & Hout & Hshape).
  rewrite Hres in Hshape. destruct Hshape as (-> & Hlen & e & ->).
  split; [reflexivity|]. exists ts, e. split; [exact Hout | exact Hlen].
Qed.

Lemma exit_status_is_1_witness :
  1%Z = 1%Z /\
  exists ts e,
    [DebugResponseType TList; ErrorFetching (HTTPError 503)] =
    map DebugResponseType ts ++ [ErrorFetching e] /\
    List.length [mk_request first_url auth_headers;
                 mk_request second_url auth_headers] = S (List.length ts).
Proof.
  apply (exit_status_is_1 2 (serve failing_table) "o1" auth_headers
           (mk_run (SysExit 1)
                   [mk_request first_url auth_headers;
                    mk_request second_url auth_headers]
                   [DebugResponseType TList; ErrorFetching (HTTPError 503)])
           1%Z eq_refl eq_refl).
Defined.

(** X4: when the call returns, it has printed one debug line for each
    request sent and, after them, at most the message for an unexpected
    body; no error message is among the lines. *)
Theorem returned_run_transcript :
  forall (fuel : nat) (srv : server) (org_id : string) (hdrs : headers)
         (r : run) (devs : list json),
    get_all_devices fuel srv org_id hdrs = Some r ->
    result r = Returned devs ->
    exists ts tail,
      output r = map DebugResponseType ts ++ tail /\
      List.length ts = List.length (requests r) /\
      (tail = [] \/ exists b, tail = [UnexpectedResponse b]).
Proof.
  intros fuel srv org_id hdrs r devs H Hres. unfold get_all_devices in H.
  destruct (while_transcript srv hdrs fuel (initial org_id) r H)
    as (ts & tail & Hout & Hshape).
  rewrite Hres in Hshape. destruct Hshape as [Hlen Htail].
  exists ts, tail. split; [exact Hout|]. split; [now rewrite Hlen | exact Htail].
Qed.

Lemma returned_run_transcript_witness :
  exists ts tail,
    [DebugResponseType TStr; UnexpectedResponse notice] =
    map DebugResponseType ts ++ tail /\
    List.length ts = List.length [mk_request first_url auth_headers] /\
    (tail = [] \/ exists b, tail = [UnexpectedResponse b]).
Proof.
  apply (returned_run_transcript 1 (serve notice_table) "o1" auth_headers
           (mk_run (Returned [])
                   [mk_request first_url auth_headers]
                   [DebugResponseType TStr; UnexpectedResponse notice])
           [] eq_refl eq_refl).
Defined.



(* ================================================================== *)
(** * Further properties of the Link header *)
(* ================================================================== *)

Module LinkMore.

(** A text without the separator that opens [s] opens the first piece
    of [s]. *)
Lemma prefix_first_piece (sep : ascii) (n : string) :
  forall s : string,
    has_char sep n = false ->
    String.prefix n s = true ->
    String.prefix n (hd EmptyString (split sep s)) = true.
Proof.
  induction n as [|b n IH]; intros s Hn Hp.
  - destruct (hd EmptyString (split sep s)); reflexivity.
  - destruct s as [|a r]; [discriminate|].
    cbn [has_char] in Hn. apply orb_false_iff in Hn. destruct Hn as [Hb Hn].
    cbn [String.prefix] in Hp.
    destruct (Ascii.ascii_dec b a) as [<-|]; [|discriminate].
    cbn [split]. rewrite Hb.
    destruct (split_cons sep r) as (p & ps & E).
    specialize (IH r Hn Hp). rewrite E in *. cbn [hd] in *.
    cbn [String.prefix]. destruct (Ascii.ascii_dec b b); [exact IH | congruence].
Qed.

Lemma contains_cons (n : string) (a : ascii) (s : string) :
  contains n s = true -> contains n (String a s) = true.
Proof. intros H. cbn [contains]. rewrite H. apply orb_true_r. Qed.

Lemma prefix_contains (n s : string) :
  String.prefix n s = true -> contains n s = true.
Proof. intros H. destruct s; cbn [contains]; now rewrite H. Qed.

(** A text without the separator that occurs in [s] occurs in one of
    the pieces of [s]. *)
Lemma contains_split (sep : ascii) (b : ascii) (n : string) :
  forall s : string,
    has_char sep (String b n) = false ->
    contains (String b n) s = true ->
    Exists (fun p => contains (String b n) p = true) (split sep s).
Proof.
  intros s Hn. induction s as [|a r IH]; intros Hc.
  - discriminate.
  - cbn [contains] in Hc. apply orb_true_iff in Hc. cbn [split].
    destruct (Ascii.eqb a sep) eqn:Ea.
    + apply Exists_cons_tl, IH.
      destruct Hc as [Hp|Hc]; [|exact Hc]. exfalso.
      apply Ascii.eqb_eq in Ea. subst a.
      cbn [String.prefix] in Hp.
      destruct (Ascii.ascii_dec b sep) as [->|]; [|discriminate].
      cbn [has_char] in Hn. now rewrite Ascii.eqb_refl in Hn.
    + destruct (split_cons sep r) as (p & ps & E). rewrite E.
      destruct Hc as [Hp|Hc].
      * apply Exists_cons_hd, prefix_contains.
        pose proof (prefix_first_piece sep (String b n) (String a r) Hn Hp)
          as H.
        cbn [split] in H. now rewrite Ea, E in H.
      * specialize (IH Hc). rewrite E in IH.
        inversion IH as [? ? H|? ? H]; subst.
        -- now apply Exists_cons_hd, contains_cons.
        -- now apply Exists_cons_tl.
Qed.

(** The pieces of a split hold no separator, and no character that the
    text does not hold. *)
Lemma split_no_sep (sep : ascii) (s : string) :
  Forall (fun p => has_char sep p = false) (split sep s).
Proof.
  induction s as [|a r IH]; [repeat constructor|].
  cbn [split]. destruct (Ascii.eqb a sep) eqn:Ea.
  - constructor; [reflexivity | exact IH].
  - destruct (split sep r) as [|p ps]; [repeat constructor; cbn; now rewrite Ea|].
    inversion IH as [|? ? Hp Hps]; subst.
    constructor; [|exact Hps]. cbn [has_char]. now rewrite Ea, Hp.
Qed.

Lemma split_sub (sep c : ascii) (s : string) :
  has_char c s = false ->
  Forall (fun p => has_char c p = false) (split sep s).
Proof.
  induction s as [|a r IH]; intros H; [repeat constructor|].
  cbn [has_char] in H. apply orb_false_iff in H. destruct H as [Ha Hr].
  specialize (IH Hr). cbn [split]. destruct (Ascii.eqb a sep).
  - constructor; [reflexivity | exact IH].
  - destruct (split sep r) as [|p ps]; [repeat constructor; cbn; now rewrite Ha|].
    inversion IH as [|? ? Hp Hps]; subst.
    constructor; [|exact Hps]. cbn [has_char]. now rewrite Ha, Hp.
Qed.

(** The loop over the entries ends without a URL only when no entry has
    the marker. *)
Lemma find_next_none (links : list string) :
  find_next links = inr None ->
  Forall (fun link => contains rel_next link = false) links.
Proof.
  induction links as [|link rest IH]; intros H; [constructor|].
  cbn [find_next] in H. destruct (contains rel_next link) eqn:Ec.
  - destruct (nth_error (split "<" link) 1) as [t|]; [|discriminate].
    destruct (nth_error (split ">" t) 0); discriminate.
  - constructor; [exact Ec | now apply IH].
Qed.

(** Where the URL that the loop finds comes from. *)
Lemma find_next_some (links : list string) (u : string) :
  find_next links = inr (Some u) ->
  exists link t,
    In link links /\
    In t (split "<" link) /\
    In u (split ">" t).
Proof.
  induction links as [|link rest IH]; intros H; [discriminate|].
  cbn [find_next] in H. destruct (contains rel_next link).
  - destruct (nth_error (split "<" link) 1) as [t|] eqn:Et; [|discriminate].
    destruct (nth_error (split ">" t) 0) as [u'|] eqn:Eu; [|discriminate].
    injection H as <-. exists link, t.
    split; [now left|]. split; eapply nth_error_In; eassumption.
  - destruct (IH H) as (link' & t & Hin & Ht & Hu).
    exists link', t. split; [now right | now split].
Qed.

Lemma find_next_error (links : list string) (e : exn) :
  find_next links = inl e -> e = IndexError.
Proof.
  induction links as [|link rest IH]; intros H; [discriminate|].
  cbn [find_next] in H. destruct (contains rel_next link); [|now apply IH].
  destruct (nth_error (split "<" link) 1) as [t|]; [|now injection H].
  destruct (nth_error (split ">" t) 0); [discriminate | now injection H].
Qed.

End LinkMore.

Import LinkMore.

(** X6: the new URL is [None] exactly when the Link header does not
    contain [rel="next"]: with the marker in the header, one of the
    comma-separated entries has it, so the [else] of the [for] loop
    (lines 60-61) is never reached, and the outcome is a URL or an
    [IndexError]. *)
Theorem next_url_none_iff_no_marker :
  forall header : string,
    (next_url header = inr None <-> contains rel_next header = false) /\
    (forall e, next_url header = inl e ->
               e = IndexError /\ contains rel_next header = true) /\
    (contains rel_next header = true ->
     Exists (fun link => contains rel_next link = true) (split "," header)).
Proof.
  intros header.
  assert (Hex : contains rel_next header = true ->
                Exists (fun link => contains rel_next link = true)
                       (split "," header)).
  { intros Hc. unfold rel_next in *. cbn [append] in *.
    apply contains_split; [reflexivity | exact Hc]. }
  split; [|split; [|exact Hex]].
  - split; [|apply next_url_absent].
    unfold next_url. destruct (contains rel_next header) eqn:Ec; [|reflexivity].
    intros Hn. apply find_next_none in Hn. specialize (Hex eq_refl).
    apply Exists_exists in Hex. destruct Hex as (link & Hin & Hl).
    rewrite Forall_forall in Hn. rewrite (Hn link Hin) in Hl. discriminate.
  - unfold next_url. destruct (contains rel_next header); [|discriminate].
    intros e He. split; [exact (find_next_error _ e He) | reflexivity].
Qed.

Lemma next_url_none_iff_no_marker_witness :
  next_url "<https://api.mist.com/api/v1/self>; rel=prev" = inr None.
Proof.
  apply (proj2 (proj1 (next_url_none_iff_no_marker
                         "<https://api.mist.com/api/v1/self>; rel=prev"))
           eq_refl).
Defined.

(** X7: a URL taken from a Link header never holds a comma, a [<] or a
    [>]. *)
Theorem next_url_has_no_delimiter :
  forall header u : string,
    next_url header = inr (Some u) ->
    has_char "," u = false /\
    has_char "<" u = false /\
    has_char ">" u = false.
Proof.
  intros header u H. unfold next_url in H.
  destruct (contains rel_next header); [|discriminate].
  apply find_next_some in H. destruct H as (link & t & Hlink & Ht & Hu).
  pose proof (split_no_sep "," header) as Hc.
  rewrite Forall_forall in Hc. specialize (Hc link Hlink).
  pose proof (split_sub "<" "," link Hc) as Hc'.
  rewrite Forall_forall in Hc'. specialize (Hc' t Ht).
  pose proof (split_no_sep "<" link) as Hl.
  rewrite Forall_forall in Hl. specialize (Hl t Ht).
  pose proof (split_sub ">" "," t Hc') as H1.
  pose proof (split_sub ">" "<" t Hl) as H2.
  pose proof (split_no_sep ">" t) as H3.
  rewrite Forall_forall in H1, H2, H3. auto.
Qed.

Lemma next_url_has_no_delimiter_witness :
  has_char "," second_url = false /\
  has_char "<" second_url = false /\
  has_char ">" second_url = false.
Proof.
  apply (next_url_has_no_delimiter (plain_link second_url) second_url eq_refl).
Defined.

(* ================================================================== *)
(** * Further properties of the grouping and of the display *)
(* ================================================================== *)

Module GroupFacts.
Import More.

(** When the grouping loop ends without a raise, it has warned about
    every element that is not a mapping and folded the records into
    the groups. *)
Lemma group_devices_inr (devs : list json) :
  forall (g0 : groups) (ls : list line) (g : groups),
    group_devices devs g0 = (ls, inr g) ->
    ls = warnings devs /\ g = fold_left add_record (records devs) g0.
Proof.
  induction devs as [|v devs IH]; intros g0 ls g H.
  - cbn in H. injection H as <- <-. split; reflexivity.
  - destruct v;
      try (cbn [group_devices] in H;
           destruct (group_devices devs g0) as [ls' r'] eqn:E;
           injection H as <- ->;
           destruct (IH g0 ls' g E) as [-> ->]; split; reflexivity).
    cbn [group_devices] in H. fold (type_of_record d) in H.
    destruct (hashable (type_of_record d)); [|discriminate].
    destruct (IH _ ls g H) as [-> ->]. split; reflexivity.
Qed.


(** An unhashable type stops the loop: the warnings so far, then
    [TypeError]. *)
Lemma group_devices_unhashable (pre : list json) (d : pydict)
  (post : list json) :
  forall g0 : groups,
    hashable_types pre ->
    hashable (type_of_record d) = false ->
    group_devices (pre ++ JDict d :: post) g0 = (warnings pre, inl TypeError).
Proof.
  unfold hashable_types.
  induction pre as [|v pre IH]; intros g0 Hall Hd.
  - cbn [app group_devices]. fold (type_of_record d). now rewrite Hd.
  - destruct v;
      try (cbn [app group_devices records] in *;
           rewrite (IH g0 Hall Hd); reflexivity).
    cbn [records] in Hall. inversion Hall as [|? ? Hd0 Hrest]; subst.
    cbn [app group_devices]. fold (type_of_record d0). rewrite Hd0.
    exact (IH _ Hrest Hd).
Qed.

(** *** One group for each record *)

Lemma all_members_app (g1 g2 : groups) :
  all_members (g1 ++ g2) = all_members g1 ++ all_members g2.
Proof. unfold all_members. now rewrite map_app, concat_app. Qed.

Lemma append_to_perm (k : json) (d : pydict) (g : groups) :
  has_group k g = true ->
  Permutation (all_members (append_to k d g)) (all_members g ++ [d]).
Proof.
  induction g as [|[k' ds] g IH]; intros H; [discriminate|].
  cbn [has_group] in H. cbn [append_to].
  destruct (py_eqb k' k).
  - unfold all_members. cbn [map snd List.concat].
    rewrite <- !app_assoc. apply Permutation_app_head.
    apply Permutation_app_comm.
  - cbn [orb] in H. unfold all_members in *. cbn [map snd List.concat].
    rewrite <- app_assoc. apply Permutation_app_head. now apply IH.
Qed.

Lemma add_device_perm (k : json) (d : pydict) (g : groups) :
  Permutation (all_members (add_device k d g)) (all_members g ++ [d]).
Proof.
  unfold add_device. destruct (has_group k g) eqn:E.
  - now apply append_to_perm.
  - rewrite all_members_app. unfold all_members at 2. cbn. reflexivity.
Qed.

Lemma fold_add_perm (recs : list pydict) :
  forall g : groups,
    Permutation (all_members (fold_left add_record recs g))
                (all_members g ++ recs).
Proof.
  induction recs as [|d recs IH]; intros g.
  - cbn. now rewrite app_nil_r.
  - cbn [fold_left]. rewrite IH. unfold add_record.
    rewrite add_device_perm, <- app_assoc. reflexivity.
Qed.

(** *** No empty group, no key twice *)









(** *** The first group *)




(** *** The lines of a display *)

Lemma lines_and_then (P : line -> Prop) (a b : trace) :
  Forall P (fst a) -> Forall P (fst b) -> Forall P (fst (a ;; b)).
Proof.
  intros Ha Hb. unfold and_then. destruct (snd a); [exact Ha|].
  cbn [fst]. apply Forall_app. now split.
Qed.

Lemma show_device_lines (d : pydict) :
  Forall (fun l => is_listing_line l = true) (fst (show_device d)).
Proof.
  unfold show_device.
  destruct (formattable (get d "name" (JStr "Unnamed")) &&
            formattable (get d "model" (JStr "N/A")));
    destruct (formattable (get d "serial" (JStr "N/A")));
    repeat constructor.
Qed.

Lemma for_each_lines {A : Type} (f : A -> trace) (l : list A) :
  (forall x, Forall (fun ln => is_listing_line ln = true) (fst (f x))) ->
  Forall (fun ln => is_listing_line ln = true) (fst (for_each f l)).
Proof.
  intros Hf. induction l as [|x l IH]; [constructor|].
  cbn [for_each]. apply lines_and_then; [apply Hf | exact IH].
Qed.

Lemma show_group_lines (e : json * list pydict) :
  Forall (fun l => is_listing_line l = true) (fst (show_group e)).
Proof.
  destruct e as [k ds]. unfold show_group.
  destruct k; try (now constructor).
  apply lines_and_then; [repeat constructor|].
  apply lines_and_then; [repeat constructor|].
  apply for_each_lines, show_device_lines.
Qed.

Lemma group_devices_lines (devs : list json) :
  forall g : groups,
    Forall (fun l => is_listing_line l = true) (fst (group_devices devs g)).
Proof.
  induction devs as [|v devs IH]; intros g; [constructor|].
  destruct v;
    try (cbn [group_devices]; specialize (IH g);
         destruct (group_devices devs g); constructor;
         [reflexivity | exact IH]).
  cbn [group_devices]. destruct (hashable _); [apply IH | constructor].
Qed.

Lemma preamble_lines (devs : list json) :
  Forall (fun l => is_listing_line l = true) (preamble devs).
Proof. destruct devs as [|[] rest]; repeat constructor. Qed.

(** [display_devices] on a collection that is not empty: the preamble,
    the grouping loop, the groups. *)
Lemma display_devices_steps (devs : list json) :
  devs <> [] ->
  display_devices devs =
  (preamble devs ++ fst (group_devices devs []), None) ;;
  show_groups (snd (group_devices devs [])).
Proof.
  intros Hne. destruct devs as [|first rest]; [congruence|].
  unfold display_devices, show_groups.
  destruct (group_devices (first :: rest) []) as [ws gr].
  destruct first; reflexivity.
Qed.

(** For a collection that is not empty, every line is a line of the
    listing. *)
Lemma no_devices_found_listing (devs : list json) :
  (devs = [] -> display_devices devs = ([NoDevicesFound], None)) /\
  (devs <> [] ->
   Forall (fun l => is_listing_line l = true) (fst (display_devices devs))).
Proof.
  split; [now intros ->|]. intros Hne.
  rewrite (display_devices_steps devs Hne).
  apply lines_and_then.
  - cbn [fst]. apply Forall_app. split;
      [apply preamble_lines | apply group_devices_lines].
  - unfold show_groups. destruct (snd (group_devices devs [])).
    + constructor.
    + apply for_each_lines, show_group_lines.
Qed.

Lemma in_first_seen_inv (t : string) (l : list string) :
  In t (first_seen l) -> In t l.
Proof.
  induction l as [|x l IH]; [contradiction|].
  cbn [first_seen]. intros [->|H]; [now left|].
  right. apply IH. apply filter_In in H. tauto.
Qed.

End GroupFacts.

Import More GroupFacts MoreExamples.



(** X9: for a collection whose records follow the data model, no type
    has two headers, every header counts at least one device, and the
    counts add up to the number of mappings in the collection. *)
Theorem header_counts_add_up :
  forall devs : list json,
    Forall (fun d => plain_record d = true) (records devs) ->
    NoDup (map fst (headers_of (fst (display_devices devs)))) /\
    Forall (fun h => 1 <= snd h) (headers_of (fst (display_devices devs))) /\
    list_sum (map snd (headers_of (fst (display_devices devs)))) =
    List.length (records devs).
Proof.
  intros devs Hall.
  destruct devs as [|v devs]; [repeat split; constructor|].
  rewrite display_devices_plain by (discriminate || exact Hall). cbn [fst].
  rewrite !headers_of_app, headers_of_preamble, headers_of_warnings.
  rewrite headers_of_groups. cbn [app].
  set (recs := records (v :: devs)) in *.
  rewrite !map_map. cbn [fst snd]. split; [|split].
  - rewrite map_id. apply first_seen_nodup.
  - apply Forall_forall. intros h Hh. apply in_map_iff in Hh.
    destruct Hh as (t & <- & Ht). cbn [snd].
    apply in_first_seen_inv, in_map_iff in Ht.
    destruct Ht as (d & Hd & Hin).
    assert (Hm : In d (members t recs)).
    { rewrite <- Hd. now apply in_own_group. }
    destruct (members t recs); [contradiction | cbn; lia].
  - pose proof (group_devices_grouped (v :: devs) [] Hall) as Hg.
    apply group_devices_inr in Hg. destruct Hg as [_ Hg].
    cbn [app] in Hg. fold recs in Hg.
    pose proof (fold_add_perm recs (grouped [])) as Hp. rewrite <- Hg in Hp.
    apply Permutation_length in Hp.
    change (all_members (grouped [])) with (@nil pydict) in Hp.
    cbn [app] in Hp.
    rewrite <- Hp. unfold all_members, grouped.
    rewrite length_concat, !map_map. reflexivity.
Qed.

Lemma header_counts_add_up_witness :
  NoDup (map fst (headers_of (fst (display_devices mixed)))) /\
  Forall (fun h => 1 <= snd h) (headers_of (fst (display_devices mixed))) /\
  list_sum (map snd (headers_of (fst (display_devices mixed)))) =
  List.length (records mixed).
Proof.
  apply (header_counts_add_up mixed). repeat constructor.
Defined.

(** X10: "No devices found." is printed for the empty collection and
    for no other: there it is the only line, and a collection that is
    not empty gets the count of its elements as first line and then
    only lines of the listing. Nothing is raised for the empty
    collection. *)
Theorem no_devices_found_only_when_empty :
  forall devs : list json,
    (devs = [] -> display_devices devs = ([NoDevicesFound], None)) /\
    (devs <> [] ->
     (exists rest,
         fst (display_devices devs) = FoundDevices (List.length devs) :: rest)
     /\ Forall (fun l => is_listing_line l = true) (fst (display_devices devs))
     /\ ~ In NoDevicesFound (fst (display_devices devs))).
Proof.
  intros devs. split; [now intros ->|]. intros Hne.
  pose proof (proj2 (no_devices_found_listing devs) Hne) as Hl.
  split; [|split; [exact Hl|]].
  - rewrite (display_devices_steps devs Hne).
    destruct devs as [|first rest]; [congruence|].
    unfold and_then. cbn [fst snd preamble app]. now eexists.
  - intros Hin. rewrite Forall_forall in Hl. specialize (Hl _ Hin).
    discriminate.
Qed.

Lemma no_devices_found_only_when_empty_witness :
  (exists rest,
      fst (display_devices mixed) = FoundDevices (List.length mixed) :: rest)
  /\ Forall (fun l => is_listing_line l = true) (fst (display_devices mixed))
  /\ ~ In NoDevicesFound (fst (display_devices mixed)).
Proof.
  apply (proj2 (no_devices_found_only_when_empty mixed)). discriminate.
Defined.

(** X11: a record whose type is a list or a mapping makes the grouping
    loop raise [TypeError]: the warnings for the elements before it are
    printed, no group at all is shown, not even for the records before
    it. *)
Theorem unhashable_type_stops_display :
  forall (pre : list json) (d : pydict) (post : list json),
    hashable_types pre ->
    hashable (type_of_record d) = false ->
    display_devices (pre ++ JDict d :: post) =
    (preamble (pre ++ JDict d :: post) ++ warnings pre, Some TypeError).
Proof.
  intros pre d post Hpre Hd.
  rewrite display_devices_steps by (destruct pre; discriminate).
  rewrite (group_devices_unhashable pre d post [] Hpre Hd).
  unfold and_then. cbn. now rewrite app_nil_r.
Qed.

Lemma unhashable_type_stops_display_witness :
  display_devices with_list_type =
  ([FoundDevices 3; Rule "=" 100; DebugFirstType TStr;
    WarnUnexpectedDevice TStr (JStr "offline")],
   Some TypeError).
Proof.
  apply (unhashable_type_stops_display [JStr "offline"] list_typed [ap1]).
  - constructor.
  - reflexivity.
Defined.






(* ================================================================== *)
(** * The script as a whole *)
(* ================================================================== *)

Import Script.

Lemma run_prints_fetch_lines (fuel : nat) (srv : server) (org_id : string)
  (hdrs : headers) (r : run) :
  get_all_devices fuel srv org_id hdrs = Some r ->
  Forall (fun l => is_fetch_line l = true) (output r).
Proof.
  intros H. unfold get_all_devices in H.
  destruct (while_transcript srv hdrs fuel (initial org_id) r H)
    as (ts & tail & -> & Hshape).
  cbn [initial printed app]. apply Forall_app. split.
  - apply Forall_forall. intros l Hl. apply in_map_iff in Hl.
    now destruct Hl as (t & <- & _).
  - destruct (result r).
    + destruct Hshape as [_ [->|[b ->]]]; repeat constructor.
    + destruct Hshape as (_ & _ & e & ->). repeat constructor.
    + destruct Hshape as (_ & -> & _). constructor.
Qed.

(** X14: the script sends requests only when both settings are there.
    Without a token (unset or empty) it stops with the [ValueError] for
    the token, whatever the organisation; with a token and without an
    organisation, with the one for the organisation; in both cases
    before any request and any output. Every request that the script
    sends goes out with the two headers built from the token, the first
    of them to the devices URL of the organisation. *)
Theorem requests_need_both_settings :
  forall (fuel : nat) (env : environ) (srv : server),
    (truthy (env "API_TOKEN") = None ->
     main fuel env srv =
     Some (mk_script_run (ValueError "Missing API_TOKEN in .env file") [] []))
    /\
    (forall api_token,
        truthy (env "API_TOKEN") = Some api_token ->
        truthy (env "ORG_ID") = None ->
        main fuel env srv =
        Some (mk_script_run (ValueError "Missing ORG_ID in .env file") [] []))
    /\
    (forall r,
        main fuel env srv = Some r ->
        script_requests r <> [] ->
        exists api_token org_id rest,
          truthy (env "API_TOKEN") = Some api_token /\
          truthy (env "ORG_ID") = Some org_id /\
          script_requests r =
            mk_request (devices_url org_id)
                       [("Authorization", ("Token " ++ api_token)%string);
                        ("Content-Type", "application/json")] :: rest /\
          Forall (fun rq => req_headers rq = make_headers api_token)
                 (script_requests r)).
Proof.
  intros fuel env srv. unfold main. split; [|split].
  - now intros ->.
  - now intros api_token -> ->.
  - intros r H Hne.
    destruct (truthy (env "API_TOKEN")) as [api_token|];
      [|injection H as <-; now contradiction Hne].
    destruct (truthy (env "ORG_ID")) as [org_id|];
      [|injection H as <-; now contradiction Hne].
    destruct (get_all_devices fuel srv org_id (make_headers api_token))
      as [rn|] eqn:Erun; [|discriminate].
    unfold get_all_devices in Erun.
    destruct (while_requests srv (make_headers api_token) fuel
                (initial org_id) rn Erun) as (more & Hreq & Hall & Hfirst).
    cbn [initial sent app] in Hreq.
    destruct (Hfirst (devices_url org_id)) as [rest Hrest].
    { cbn [initial url]. apply truthy_some, devices_url_not_empty. }
    assert (Hr : script_requests r = requests rn).
    { destruct (result rn) as [devs|code|e].
      - destruct (display_devices devs) as [shown raised].
        now injection H as <-.
      - now injection H as <-.
      - now injection H as <-. }
    exists api_token, org_id, rest. rewrite Hr, Hreq.
    split; [reflexivity|]. split; [reflexivity|]. split; [exact Hrest|exact Hall].
Qed.

Lemma requests_need_both_settings_witness :
  main 3 no_org_env (serve (table_of two_pages)) =
  Some (mk_script_run (ValueError "Missing ORG_ID in .env file") [] []).
Proof.
  apply (proj1 (proj2 (requests_need_both_settings
                         3 no_org_env (serve (table_of two_pages))))
           "t0" eq_refl eq_refl).
Defined.

(** X15: when the script ends through [sys.exit], the status is 1, the
    last line is the error message and no line of the listing has been
    printed; when it runs to its end, the lines of the fetch come first
    and the listing, or "No devices found.", after them. *)
Theorem script_output_order :
  forall (fuel : nat) (env : environ) (srv : server) (r : script_run),
    main fuel env srv = Some r ->
    (forall code,
        script_end r = SystemExit code ->
        code = 1%Z /\
        Forall (fun l => is_fetch_line l = true) (script_output r) /\
        exists before e, script_output r = before ++ [ErrorFetching e]) /\
    (script_end r = Completed ->
     exists fetched listing,
       script_output r = fetched ++ listing /\
       Forall (fun l => is_fetch_line l = true) fetched /\
       (listing = [NoDevicesFound] \/
        Forall (fun l => is_listing_line l = true) listing)).
Proof.
  intros fuel env srv r H. unfold main in H.
  destruct (truthy (env "API_TOKEN")) as [api_token|].
  2:{ injection H as <-. split; discriminate. }
  destruct (truthy (env "ORG_ID")) as [org_id|].
  2:{ injection H as <-. split; discriminate. }
  destruct (get_all_devices fuel srv org_id (make_headers api_token))
    as [rn|] eqn:Erun; [|discriminate].
  pose proof (run_prints_fetch_lines _ _ _ _ _ Erun) as Hlines.
  unfold get_all_devices in Erun.
  destruct (while_transcript srv (make_headers api_token) fuel
              (initial org_id) rn Erun) as (ts & tail & Hout & Hshape).
  destruct (result rn) as [devs|code|e].
  - destruct (display_devices devs) as [shown raised] eqn:Ed.
    injection H as <-. cbn [script_end script_output]. split.
    + intros code Hc. destruct raised; discriminate.
    + intros _. exists (output rn), shown.
      split; [reflexivity|]. split; [exact Hlines|].
      destruct devs as [|v devs].
      * left. now injection Ed as <- _.
      * right. replace shown with (fst (display_devices (v :: devs)))
          by now rewrite Ed.
        apply (proj2 (no_devices_found_listing (v :: devs))).
        discriminate.
  - injection H as <-. cbn [script_end script_output]. split.
    + intros c [= <-]. destruct Hshape as (-> & _ & e & ->).
      split; [reflexivity|]. split; [exact Hlines|].
      exists (map DebugResponseType ts), e. exact Hout.
    + discriminate.
  - injection H as <-. split; discriminate.
Qed.

Lemma script_output_order_witness :
  1%Z = 1%Z /\
  Forall (fun l => is_fetch_line l = true)
         [ErrorFetching (ConnectionError "no route to host")] /\
  exists before e,
    [ErrorFetching (ConnectionError "no route to host")] =
    before ++ [ErrorFetching e].
Proof.
  apply (proj1 (script_output_order 1 full_env (serve [])
                  (mk_script_run (SystemExit 1)
                     [mk_request (devices_url "o1") (make_headers "t0")]
                     [ErrorFetching (ConnectionError "no route to host")])
                  eq_refl) 1%Z eq_refl).
Defined.

(** X16: with both settings, on pages that are chained by their Link
    headers and whose records follow the data model, the script sends
    one request for each page, prints the debug line of each page and
    then the listing of the records of all pages together; the lines of
    every mapping of every page are in it, and the script runs to its
    end. *)
Theorem script_lists_all_pages :
  forall (fuel : nat) (env : environ) (srv : server)
         (api_token org_id : string) (pages : list page),
    truthy (env "API_TOKEN") = Some api_token ->
    truthy (env "ORG_ID") = Some org_id ->
    chain points_to srv (make_headers api_token) 0 (devices_url org_id)
          pages ->
    Forall (fun d => plain_record d = true)
           (records (List.concat (map page_items pages))) ->
    List.length pages < fuel ->
    exists shown,
      display_devices (List.concat (map page_items pages)) = (shown, None) /\
      main fuel env srv =
      Some (mk_script_run Completed
              (map (page_request (make_headers api_token)) pages)
              (List.concat (map page_debug pages) ++ shown)) /\
      (forall p d l,
          In p pages -> In (JDict d) (page_items p) ->
          In l (record_lines d) -> In l shown).
Proof.
  intros fuel env srv api_token org_id pages Htok Horg Hchain Hplain Hfuel.
  set (all := List.concat (map page_items pages)) in *.
  assert (Hrun : get_all_devices fuel srv org_id (make_headers api_token) =
                 Some (mk_run (Returned all)
                         (map (page_request (make_headers api_token)) pages)
                         (List.concat (map page_debug pages)))).
  { unfold get_all_devices.
    exact (while_chain srv (make_headers api_token) pages (initial org_id)
             (devices_url org_id) fuel eq_refl
             (devices_url_not_empty org_id) Hchain Hfuel). }
  assert (Hshow : exists shown,
             display_devices all = (shown, None) /\
             forall d l, In (JDict d) all -> In l (record_lines d) ->
                         In l shown).
  { destruct all as [|v rest] eqn:Eall.
    - exists [NoDevicesFound]. split; [reflexivity | contradiction].
    - eexists. split.
      + apply display_devices_plain; [discriminate | exact Hplain].
      + intros d l Hd Hl. apply in_or_app. right. apply in_or_app. right.
        apply (in_groups_lines d); [now apply in_records | exact Hl]. }
  destruct Hshow as (shown & Hdisp & Hin).
  exists shown. split; [exact Hdisp|]. split.
  - unfold main. rewrite Htok, Horg, Hrun. cbn [result]. rewrite Hdisp.
    reflexivity.
  - intros p d l Hp Hd Hl. apply (Hin d l); [|exact Hl].
    apply in_concat. exists (page_items p). split; [|exact Hd].
    now apply in_map.
Qed.

Lemma script_lists_all_pages_witness :
  exists shown,
    display_devices (List.concat (map page_items two_pages)) = (shown, None) /\
    main 3 full_env (serve (table_of two_pages)) =
    Some (mk_script_run Completed
            (map (page_request (make_headers "t0")) two_pages)
            (List.concat (map page_debug two_pages) ++ shown)) /\
    (forall p d l,
        In p two_pages -> In (JDict d) (page_items p) ->
        In l (record_lines d) -> In l shown).
Proof.
  apply (script_lists_all_pages 3 full_env (serve (table_of two_pages))
           "t0" "o1" two_pages eq_refl eq_refl).
  - cbn [chain two_pages page_url page_response page_items].
    split; [reflexivity|]. split; [reflexivity|]. split; [|split].
    + split; [reflexivity|].
      exists (JList [ap1; ap2]). split; reflexivity.
    + apply (points_to_plain second_url); [discriminate | reflexivity ..].
    + split; [reflexivity|]. split; [reflexivity|]. split; [|reflexivity].
      split; [reflexivity|].
      exists (JDict [("results", JList [sw1])]). split; reflexivity.
  - repeat constructor.
  - simpl. lia.
Defined.

(* ================================================================== *)
(** * The other scripts *)
(* ================================================================== *)

Module OtherFacts.

Lemma scan_skip (before rest : list json) :
  Forall (fun v => OrgId.other_scope v = true) before ->
  OrgId.scan (before ++ rest) = OrgId.scan rest.
Proof.
  induction 1 as [|v before Hv _ IH]; [reflexivity|].
  destruct v; try discriminate. cbn [app OrgId.scan].
  cbn [OrgId.other_scope] in Hv. apply negb_true_iff in Hv. now rewrite Hv.
Qed.

Lemma scan_shape (items : list json) :
  (exists l, OrgId.scan items = ([l], None)) \/
  OrgId.scan items = ([], Some AttributeError).
Proof.
  induction items as [|v items IH]; [left; now eexists|].
  destruct v; try (now right). cbn [OrgId.scan].
  destruct (py_eqb _ _); [left; now eexists | exact IH].
Qed.

Lemma scan_none (items : list json) :
  OrgId.scan items = ([OrgId.NoOrganization], None) <->
  Forall (fun v => OrgId.other_scope v = true) items.
Proof.
  induction items as [|v items IH]; [split; [constructor | reflexivity]|].
  destruct v; try (split; [discriminate | intros H; inversion H; discriminate]).
  cbn [OrgId.scan]. split.
  - destruct (py_eqb (get d "scope" JNull) (JStr "org")) eqn:E;
      [discriminate|].
    intros H. constructor; [cbn; now rewrite E | now apply IH].
  - intros H. inversion H as [|? ? Hd Hrest]; subst.
    cbn [OrgId.other_scope] in Hd. apply negb_true_iff in Hd. rewrite Hd.
    now apply IH.
Qed.

Lemma show_site_complete (site : json) :
  Sites.complete_site site = true ->
  exists l, Sites.show_site site = inr l /\ Sites.line_of site = [l].
Proof.
  destruct site; try discriminate.
  unfold Sites.complete_site, Sites.show_site, Sites.subscript,
    Sites.line_of, get.
  destruct (lookup "id" d); [|discriminate].
  destruct (lookup "name" d); [|discriminate].
  destruct (lookup "address" d); [|discriminate].
  intros _. now eexists.
Qed.

Lemma show_site_incomplete (site : json) :
  Sites.complete_site site = false ->
  exists e,
    Sites.show_site site = inl e /\
    (is_dict site = false -> e = Sites.SiteTypeError) /\
    (forall d, site = JDict d ->
               exists k, e = Sites.KeyError k /\ lookup k d = None /\
                         In k ["id"; "name"; "address"]).
Proof.
  destruct site;
    try (intros _; exists Sites.SiteTypeError;
         split; [reflexivity|]; split; [reflexivity | discriminate]).
  unfold Sites.complete_site, Sites.show_site, Sites.subscript.
  destruct (lookup "id" d) eqn:Ei.
  - destruct (lookup "name" d) eqn:En.
    + destruct (lookup "address" d) eqn:Ea; [discriminate|].
      intros _. exists (Sites.KeyError "address").
      split; [reflexivity|]. split; [discriminate|].
      intros d' [= <-]. exists "address".
      split; [reflexivity|]. split; [exact Ea | cbn; auto].
    + intros _. exists (Sites.KeyError "name").
      split; [reflexivity|]. split; [discriminate|].
      intros d' [= <-]. exists "name".
      split; [reflexivity|]. split; [exact En | cbn; auto].
  - intros _. exists (Sites.KeyError "id").
    split; [reflexivity|]. split; [discriminate|].
    intros d' [= <-]. exists "id".
    split; [reflexivity|]. split; [exact Ei | cbn; auto].
Qed.

Lemma show_sites_good (good rest : list json) :
  Forall (fun site => Sites.complete_site site = true) good ->
  Sites.show_sites (good ++ rest) =
  (flat_map Sites.line_of good ++ fst (Sites.show_sites rest),
   snd (Sites.show_sites rest)) /\
  List.length (flat_map Sites.line_of good) = List.length good.
Proof.
  induction 1 as [|site good Hs _ [IH IHlen]].
  - cbn. now destruct (Sites.show_sites rest).
  - destruct (show_site_complete site Hs) as (l & Hl & Hline).
    cbn [app Sites.show_sites flat_map]. rewrite Hl, IH, Hline.
    cbn [app List.length fst snd]. now rewrite IHlen.
Qed.

End OtherFacts.

Import OtherFacts.

(** X17: the script prints the [org_id] of the first privilege whose
    scope is "org", when the privileges before it are mappings with
    another scope; what comes after that privilege is not looked at,
    and a privilege without [org_id] is printed as [None]. *)
Theorem first_org_privilege_wins :
  forall (d : pydict) (before : list json) (p : pydict) (after : list json),
    get d "privileges" JNull = JList (before ++ JDict p :: after) ->
    Forall (fun v => OrgId.other_scope v = true) before ->
    get p "scope" JNull = JStr "org" ->
    OrgId.report (JDict d) =
    ([OrgId.OrganizationId (get p "org_id" JNull)], None).
Proof.
  intros d before p after Hpriv Hbefore Hscope.
  unfold OrgId.report. rewrite Hpriv.
  replace (OrgId.truth (JList (before ++ JDict p :: after))) with true
    by (destruct before; reflexivity).
  cbn [py_iter]. rewrite (scan_skip before _ Hbefore).
  cbn [OrgId.scan]. now rewrite Hscope.
Qed.

Lemma first_org_privilege_wins_witness :
  OrgId.report
    (JDict [("privileges",
             JList [JDict [("scope", JStr "site"); ("site_id", JStr "s1")];
                    JDict [("scope", JStr "org"); ("org_id", JStr "o1")];
                    JStr "ignored"])]) =
  ([OrgId.OrganizationId (JStr "o1")], None).
Proof.
  apply (first_org_privilege_wins
           [("privileges",
             JList [JDict [("scope", JStr "site"); ("site_id", JStr "s1")];
                    JDict [("scope", JStr "org"); ("org_id", JStr "o1")];
                    JStr "ignored"])]
           [JDict [("scope", JStr "site"); ("site_id", JStr "s1")]]
           [("scope", JStr "org"); ("org_id", JStr "o1")]
           [JStr "ignored"] eq_refl).
  - repeat constructor.
  - reflexivity.
Defined.

(** X18: on any parsed body the script prints exactly one line and
    raises nothing, or prints nothing and raises [AttributeError] or
    [TypeError]; it is [TypeError] exactly when the body is a mapping
    whose [privileges] is true and cannot be iterated (a number other
    than zero, [true]). *)
Theorem org_report_one_line_or_raise :
  forall data : json,
    ((exists l, OrgId.report data = ([l], None)) \/
     OrgId.report data = ([], Some AttributeError) \/
     OrgId.report data = ([], Some TypeError)) /\
    (OrgId.report data = ([], Some TypeError) <->
     exists d,
       data = JDict d /\
       OrgId.truth (get d "privileges" JNull) = true /\
       py_iter (get d "privileges" JNull) = None).
Proof.
  intros data. destruct data;
    try (split; [right; left; reflexivity|];
         split; [discriminate | intros (d & Hd & _); discriminate]).
  unfold OrgId.report.
  destruct (OrgId.truth (get d "privileges" JNull)) eqn:Et.
  - destruct (py_iter (get d "privileges" JNull)) as [items|] eqn:Ei.
    + split.
      * destruct (scan_shape items) as [[l Hl]|Hl]; rewrite Hl;
          [left; now exists l | right; now left].
      * split.
        -- intros H. destruct (scan_shape items) as [[l Hl]|Hl];
             rewrite Hl in H; discriminate.
        -- intros (d' & [= <-] & _ & Hn). congruence.
    + split; [right; now right|].
      split; [intros _; now exists d | reflexivity].
  - split; [left; now eexists|].
    split; [discriminate | intros (d' & [= <-] & Ht & _); congruence].
Qed.

(** X19: "No organization found in user privileges" is printed exactly
    when the body is a mapping whose [privileges] is a list, not empty,
    of mappings none of which has the scope "org". *)
Theorem no_organization_iff :
  forall data : json,
    OrgId.report data = ([OrgId.NoOrganization], None) <->
    exists d items,
      data = JDict d /\
      get d "privileges" JNull = JList items /\
      items <> [] /\
      Forall (fun v => OrgId.other_scope v = true) items.
Proof.
  intros data. split.
  - destruct data; try discriminate. unfold OrgId.report.
    destruct (OrgId.truth (get d "privileges" JNull)) eqn:Et;
      [|discriminate].
    destruct (get d "privileges" JNull) as [| | | |s|l|d'] eqn:Ep;
      try discriminate; cbn [py_iter].
    + intros H. apply scan_none in H. exfalso.
      destruct (py_chars s) as [|c cs] eqn:Ec.
      * apply py_chars_nil in Ec. subst s. discriminate.
      * cbn [map] in H. inversion H; discriminate.
    + intros H. apply scan_none in H. exists d, l.
      repeat split; try assumption. intros ->. discriminate.
    + intros H. apply scan_none in H. exfalso.
      destruct d' as [|[k v] d']; [discriminate|].
      cbn [keys map] in H. inversion H; discriminate.
  - intros (d & items & -> & Hp & Hne & Hall).
    unfold OrgId.report. rewrite Hp.
    replace (OrgId.truth (JList items)) with true
      by (destruct items; [congruence | reflexivity]).
    cbn [py_iter]. now apply scan_none.
Qed.

Lemma no_organization_iff_witness :
  OrgId.report
    (JDict [("privileges", JList [JDict [("scope", JStr "site")]])]) =
  ([OrgId.NoOrganization], None).
Proof.
  apply (proj2 (no_organization_iff
                  (JDict [("privileges",
                           JList [JDict [("scope", JStr "site")]])]))).
  exists [("privileges", JList [JDict [("scope", JStr "site")]])],
         [JDict [("scope", JStr "site")]].
  repeat split; [discriminate | repeat constructor].
Defined.

(** X20: the script prints one line for each site, in order, as long as
    the sites are mappings with [id], [name] and [address]: for a list
    of such sites, a line for each and no raise; otherwise the lines of
    the sites before the first other one, then [KeyError] for a missing
    key of these three when that site is a mapping, [TypeError] when it
    is not. *)
Theorem sites_listed_until_first_bad :
  (forall sites : list json,
      Forall (fun site => Sites.complete_site site = true) sites ->
      Sites.list_sites (JList sites) = (flat_map Sites.line_of sites, None) /\
      List.length (flat_map Sites.line_of sites) = List.length sites) /\
  (forall (good : list json) (bad : json) (rest : list json),
      Forall (fun site => Sites.complete_site site = true) good ->
      Sites.complete_site bad = false ->
      exists e,
        Sites.list_sites (JList (good ++ bad :: rest)) =
        (flat_map Sites.line_of good, Some e) /\
        (is_dict bad = false -> e = Sites.SiteTypeError) /\
        (forall d, bad = JDict d ->
                   exists k, e = Sites.KeyError k /\ lookup k d = None /\
                             In k ["id"; "name"; "address"])).
Proof.
  split.
  - intros sites Hall. unfold Sites.list_sites. cbn [py_iter].
    destruct (show_sites_good sites [] Hall) as [H Hlen].
    rewrite app_nil_r in H. rewrite H. cbn. now rewrite app_nil_r.
  - intros good bad rest Hall Hbad. unfold Sites.list_sites. cbn [py_iter].
    destruct (show_site_incomplete bad Hbad) as (e & He & Hty & Hkey).
    exists e. split; [|split; assumption].
    destruct (show_sites_good good (bad :: rest) Hall) as [H _].
    rewrite H. cbn [Sites.show_sites]. rewrite He. cbn.
    now rewrite app_nil_r.
Qed.

Lemma sites_listed_until_first_bad_witness :
  exists e,
    Sites.list_sites
      (JList ([JDict [("id", JStr "s1"); ("name", JStr "HQ");
                      ("address", JStr "1 Main St")]] ++
              JDict [("id", JStr "s2"); ("name", JStr "Lab")] :: [])) =
    (flat_map Sites.line_of
       [JDict [("id", JStr "s1"); ("name", JStr "HQ");
               ("address", JStr "1 Main St")]],
     Some e) /\
    (is_dict (JDict [("id", JStr "s2"); ("name", JStr "Lab")]) = false ->
     e = Sites.SiteTypeError) /\
    (forall d, JDict [("id", JStr "s2"); ("name", JStr "Lab")] = JDict d ->
               exists k, e = Sites.KeyError k /\ lookup k d = None /\
                         In k ["id"; "name"; "address"]).
Proof.
  apply (proj2 sites_listed_until_first_bad
           [JDict [("id", JStr "s1"); ("name", JStr "HQ");
                   ("address", JStr "1 Main St")]]
           (JDict [("id", JStr "s2"); ("name", JStr "Lab")]) []).
  - repeat constructor.
  - reflexivity.
Defined.
